(** * The fluent datasource registry of great_expectations

    A shallow embedding of [great_expectations/datasource/fluent/sources.py]:
    the class [_SourceFactories] with its registration protocol
    ([register_types_and_ds_factory], [_register_assets],
    [_register_datasource_and_factory_method],
    [_bind_asset_factory_method_if_not_present]) and its dynamic facade
    ([factories], [__getattr__], [__dir__]), followed by the properties the
    specification states about them.

    Python objects that the code mutates and shares (classes, function
    objects, the class-wide tables) live in an explicit store [State];
    references are natural numbers.  Exceptions are values of [exn] and the
    code runs in a state-and-exception monad [M]. *)

From Stdlib Require Import String Ascii.
From stdpp Require Import base option list gmap strings.

Set Warnings "-register-all".

(** ** Python values, exceptions *)

Module Py.

(** The values a pydantic [type] field default takes here: [None] when the
    field is declared without a value, or a string. *)
Inductive value : Type :=
| PyNone
| PyStr (s : string).

(** Truth value testing: [None] and the empty string are falsy. *)
Definition truthy (v : value) : bool :=
  match v with
  | PyNone => false
  | PyStr s => negb (bool_decide (s = ""))
  end.

(** [str(v)], what an f-string interpolates. *)
Definition str (v : value) : string :=
  match v with
  | PyNone => "None"
  | PyStr s => s
  end.

(** [s.startswith(p)] *)
Definition startswith (s p : string) : bool := String.prefix p s.

End Py.

(** References to class objects and to function objects. *)
Definition type_ref : Type := nat.
Definition fn_ref : Type := nat.

(** Exceptions, with the classes this module raises or handles.
    [TypeRegistrationError] keeps the exception it was raised [from].
    [DuplicateTagError] and [DuplicateTypeError] are the two errors of the
    bidirectional map; the map raises them as a kind of [ValueError], so
    they are instances of [ValueError] and of none of [AttributeError],
    [KeyError] and [TypeError]. *)
Inductive exn : Type :=
| KeyError (key : string)
| AttributeError (msg : string)
| TypeError (msg : string)
| ValueError (msg : string)
| TypeRegistrationError (msg : string) (cause : option exn)
| DuplicateTagError (tag : string) (present : type_ref)
| DuplicateTypeError (ty : type_ref) (present : string)
| OtherError (msg : string).

Definition is_TypeRegistrationError (e : exn) : bool :=
  match e with TypeRegistrationError _ _ => true | _ => false end.

(** The two errors of the bidirectional map. *)
Definition is_duplicate_error (e : exn) : bool :=
  match e with
  | DuplicateTagError _ _ | DuplicateTypeError _ _ => true
  | _ => false
  end.

(** [isinstance(e, ValueError)] *)
Definition is_ValueError (e : exn) : bool :=
  match e with
  | ValueError _ | DuplicateTagError _ _ | DuplicateTypeError _ _ => true
  | _ => false
  end.

(** ** The bidirectional type map *)

Module TypeLookup.

(** Modelled from the spec: the bidirectional map [TypeLookup] is imported
    from [type_lookup], which is not part of this module.  Section 4.1: a
    bijective mapping between a type and a string tag whose [names] come in
    insertion order.  Entries are kept as an insertion-ordered list. *)
Definition t : Type := list (string * type_ref).

(** Modelled from the spec: [get(tag) -> type], absent when the tag is not
    registered. *)
Fixpoint get (m : t) (tag : string) : option type_ref :=
  match m with
  | [] => None
  | (tag', ty) :: m' => if bool_decide (tag' = tag) then Some ty else get m' tag
  end.

(** Modelled from the spec: [getTag(type) -> tag]. *)
Fixpoint getTag (m : t) (ty : type_ref) : option string :=
  match m with
  | [] => None
  | (tag, ty') :: m' => if bool_decide (ty' = ty) then Some tag else getTag m' ty
  end.

(** Modelled from the spec: [names()], all registered tags in insertion
    order. *)
Definition names (m : t) : list string := m.*1.

(** Modelled from the spec: the check of [set(type, tag)].  It fails with
    [DuplicateTagError] if [tag] already maps to a different type, or
    [DuplicateTypeError] if [type] already maps to a different tag;
    otherwise it yields the entries to insert (none when the pair is
    already there). *)
Definition check (m : t) (ty : type_ref) (tag : string) : exn + list (string * type_ref) :=
  match get m tag with
  | Some ty' =>
      if bool_decide (ty' = ty) then
        match getTag m ty with
        | Some tag' => if bool_decide (tag' = tag) then inr [] else inl (DuplicateTypeError ty tag')
        | None => inr []
        end
      else inl (DuplicateTagError tag ty')
  | None =>
      match getTag m ty with
      | Some tag' => inl (DuplicateTypeError ty tag')
      | None => inr [(tag, ty)]
      end
  end.

(** Modelled from the spec: [set(type, tag)] on the map itself. *)
Definition set (m : t) (ty : type_ref) (tag : string) : exn + t :=
  match check m ty tag with
  | inl e => inl e
  | inr new => inr (m ++ new)
  end.

(** Modelled from the spec: the scoped handle of [beginTransaction()], a
    view over the committed entries in which every [set] is staged. *)
Record handle : Type := Handle { committed : t; staged : list (string * type_ref) }.

(** Modelled from the spec: opening a transaction stages nothing. *)
Definition transaction (m : t) : handle := {| committed := m; staged := [] |}.

Definition view (h : handle) : t := committed h ++ staged h.

(** Modelled from the spec: [handle[type] = tag], a staged [set]. *)
Definition setitem (h : handle) (ty : type_ref) (tag : string) : exn + handle :=
  match check (view h) ty tag with
  | inl e => inl e
  | inr new => inr {| committed := committed h; staged := staged h ++ new |}
  end.

(** Modelled from the spec: on normal exit the staged mutations are
    committed; on abnormal exit they are rolled back and the map is what
    it was before the transaction. *)
Definition commit (h : handle) : t := view h.
Definition rollback (h : handle) : t := committed h.

End TypeLookup.

(** ** Classes, function objects and the store *)

(** A pydantic field: [model.__fields__[name]] has a [default] and a
    [type_] (kept by name). *)
Record FieldInfo : Type := { field_default : Py.value; field_type_ : string }.

(** The immutable part of a class object: its identity, [__name__] and
    [__fields__]. *)
Record PyClass : Type := {
  cls_ref : type_ref;
  cls_name : string;
  cls_fields : gmap string FieldInfo
}.

(** A [Datasource] class with its declared [asset_types]. *)
Record DatasourceType : Type := {
  ds_class :> PyClass;
  asset_types : list PyClass
}.

(** What can be bound to a name in the [__dict__] of a datasource class: a
    function the user wrote, or one of the two closures that
    [_bind_asset_factory_method_if_not_present] builds over [asset_type];
    the generated functions carry their [__name__]. *)
Inductive method : Type :=
| UserDefined (f : fn_ref)
| AddAssetFactory (asset_type : type_ref) (name : string)
| ReadAssetFactory (asset_type : type_ref) (name : string).

(** The store.  [type_lookup] and [source_factories] are the two class
    attributes of [_SourceFactories]; a Python dict keeps insertion order,
    so the factory table is an association list.  [type_lookups] holds
    [ds_type._type_lookup] and [class_dict] holds [ds_type.__dict__] for
    each datasource class; [fn_name] is the [__name__] of each function
    object. *)
Record State : Type := {
  type_lookup : TypeLookup.t;
  source_factories : list (string * fn_ref);
  fn_name : gmap fn_ref string;
  type_lookups : gmap type_ref TypeLookup.t;
  class_dict : gmap type_ref (gmap string method)
}.

(** The process starts with empty tables. *)
Definition initial_state : State := {|
  type_lookup := [];
  source_factories := [];
  fn_name := ∅;
  type_lookups := ∅;
  class_dict := ∅
|}.

(** *** Python dict operations on the factory table *)

Fixpoint dict_get {V : Type} (d : list (string * V)) (k : string) : option V :=
  match d with
  | [] => None
  | (k', v) :: d' => if bool_decide (k' = k) then Some v else dict_get d' k
  end.

(** [d[k] = v]: an existing key keeps its position, a new key goes last. *)
Fixpoint dict_set {V : Type} (d : list (string * V)) (k : string) (v : V) : list (string * V) :=
  match d with
  | [] => [(k, v)]
  | (k', v') :: d' =>
      if bool_decide (k' = k) then (k', v) :: d' else (k', v') :: dict_set d' k v
  end.

Definition dict_keys {V : Type} (d : list (string * V)) : list string := d.*1.

(** *** The monad of the code: state and exceptions *)

Definition SE (S A : Type) : Type := S → (exn + A) * S.

#[global] Instance SE_ret {S : Type} : MRet (SE S) := λ A a st, (inr a, st).

#[global] Instance SE_bind {S : Type} : MBind (SE S) := λ A B k m st,
  match m st with
  | (inl e, st') => (inl e, st')
  | (inr a, st') => k a st'
  end.

Definition raise {S A : Type} (e : exn) : SE S A := λ st, (inl e, st).

Definition get_state {S : Type} : SE S S := λ st, (inr st, st).

Definition modify {S : Type} (f : S → S) : SE S unit := λ st, (inr tt, f st).

(** Lifting a computation that touches no state. *)
Definition lift {S A : Type} (r : exn + A) : SE S A :=
  match r with
  | inl e => raise e
  | inr a => mret a
  end.

(** [try: m except <classes>: h], where [classes] tells which exceptions
    the handler names. *)
Definition try_except {S A : Type} (m : SE S A) (classes : exn → bool) (h : exn → SE S A)
    : SE S A := λ st,
  match m st with
  | (inl e, st') => if classes e then h e st' else (inl e, st')
  | (inr a, st') => (inr a, st')
  end.

(** The registry runs over the store. *)
Abbreviation M := (SE State).

(** *** Accessors of the store *)

(** [ds_type._type_lookup]: every datasource class has its own map, empty
    until something is committed to it. *)
Definition _type_lookup (st : State) (c : type_ref) : TypeLookup.t :=
  default [] (type_lookups st !! c).

(** [ds_type.__dict__]: the attributes declared on the class itself. *)
Definition __dict__ (st : State) (c : type_ref) : gmap string method :=
  default ∅ (class_dict st !! c).

Definition set_type_lookup (m : TypeLookup.t) (st : State) : State := {|
  type_lookup := m;
  source_factories := source_factories st;
  fn_name := fn_name st;
  type_lookups := type_lookups st;
  class_dict := class_dict st
|}.

Definition set__type_lookup (c : type_ref) (m : TypeLookup.t) (st : State) : State := {|
  type_lookup := type_lookup st;
  source_factories := source_factories st;
  fn_name := fn_name st;
  type_lookups := <[c := m]> (type_lookups st);
  class_dict := class_dict st
|}.

(** [cls.__source_factories[name] = fn] *)
Definition set_source_factory (name : string) (fn : fn_ref) (st : State) : State := {|
  type_lookup := type_lookup st;
  source_factories := dict_set (source_factories st) name fn;
  fn_name := fn_name st;
  type_lookups := type_lookups st;
  class_dict := class_dict st
|}.

(** [fn.__name__ = name] *)
Definition set_fn_name (fn : fn_ref) (name : string) (st : State) : State := {|
  type_lookup := type_lookup st;
  source_factories := source_factories st;
  fn_name := <[fn := name]> (fn_name st);
  type_lookups := type_lookups st;
  class_dict := class_dict st
|}.

(** [setattr(cls, name, m)] *)
Definition setattr (c : type_ref) (name : string) (m : method) (st : State) : State := {|
  type_lookup := type_lookup st;
  source_factories := source_factories st;
  fn_name := fn_name st;
  type_lookups := type_lookups st;
  class_dict := <[c := <[name := m]> (__dict__ st c)]> (class_dict st)
|}.

(** ** The registry: [_SourceFactories] *)

Definition DEFAULT_PANDAS_DATA_ASSET_NAME : string := "#ephemeral_pandas_asset".

Record _FieldDetails : Type := { default_value : Py.value; type_annotation : string }.

(** [_get_field_details(model, field_name)]: indexing [__fields__] raises
    [KeyError] for a field the model does not have. *)
Definition _get_field_details (model : PyClass) (field_name : string) : exn + _FieldDetails :=
  match cls_fields model !! field_name with
  | None => inl (KeyError field_name)
  | Some f => inr {| default_value := field_default f; type_annotation := field_type_ f |}
  end.

(** [_bind_asset_factory_method_if_not_present]: the presence test looks at
    [add_<name>_asset] in the class's own [__dict__]; when it is absent both
    generated functions are bound, [_add_asset_factory] renamed to the name
    it is bound under and [_read_asset_factory] under [read_<name>]. *)
Definition _bind_asset_factory_method_if_not_present
    (ds_type : DatasourceType) (asset_type : PyClass) (asset_type_name : string) : M unit :=
  let add_asset_factory_method_name := "add_" +:+ asset_type_name +:+ "_asset" in
  st ← get_state;
  let asset_factory_defined :=
    bool_decide (is_Some (__dict__ st (cls_ref ds_type) !! add_asset_factory_method_name)) in
  if negb asset_factory_defined then
    modify (setattr (cls_ref ds_type) add_asset_factory_method_name
              (AddAssetFactory (cls_ref asset_type) add_asset_factory_method_name));;
    let read_asset_factory_method_name := "read_" +:+ asset_type_name in
    modify (setattr (cls_ref ds_type) read_asset_factory_method_name
              (ReadAssetFactory (cls_ref asset_type) "_read_asset_factory"))
  else
    mret tt.

(** The classes named by the handler of [_register_assets],
    [except (AttributeError, KeyError, TypeError)]; [TypeRegistrationError]
    derives from [TypeError].  An exception of any other class, such as the
    errors of the map, is not handled and leaves the loop as it is. *)
Definition bad_field_exc (e : exn) : bool :=
  match e with
  | AttributeError _ | KeyError _ | TypeError _ | TypeRegistrationError _ _ => true
  | _ => false
  end.

(** The [try] block of the loop body of [_register_assets]: read the tag of
    [t], refuse [None], stage the entry. *)
Definition register_asset_try (t : PyClass) (asset_type_lookup : TypeLookup.handle)
    : exn + (string * TypeLookup.handle) :=
  match _get_field_details t "type" with
  | inl e => inl e
  | inr details =>
      match default_value details with
      | Py.PyNone =>
          inl (TypeError (cls_name t +:+ " `type` field must be assigned and cannot be `None`"))
      | Py.PyStr asset_type_name =>
          match TypeLookup.setitem asset_type_lookup (cls_ref t) asset_type_name with
          | inl e => inl e
          | inr h => inr (asset_type_name, h)
          end
      end
  end.

(** One iteration of the loop of [_register_assets]. *)
Definition register_asset (ds_type : DatasourceType) (t : PyClass)
    (asset_type_lookup : TypeLookup.handle) : M TypeLookup.handle :=
  if Py.startswith (cls_name t) "_" then mret asset_type_lookup
  else
    match register_asset_try t asset_type_lookup with
    | inl bad_field =>
        if bad_field_exc bad_field then
          raise (TypeRegistrationError
                   ("No `type` field found for `" +:+ cls_name ds_type +:+ ".asset_types` -> `"
                      +:+ cls_name t +:+ "` unable to register asset type")
                   (Some bad_field))
        else raise bad_field
    | inr (asset_type_name, h) =>
        _bind_asset_factory_method_if_not_present ds_type t asset_type_name;;
        mret h
    end.

(** The [for t in asset_types] loop. *)
Fixpoint register_assets_loop (ds_type : DatasourceType) (ts : list PyClass)
    (asset_type_lookup : TypeLookup.handle) : M TypeLookup.handle :=
  match ts with
  | [] => mret asset_type_lookup
  | t :: ts' =>
      h ← register_asset ds_type t asset_type_lookup;
      register_assets_loop ds_type ts' h
  end.

(** [_register_assets(ds_type, asset_type_lookup)]; the handle is mutated by
    the call, so the model returns it. *)
Definition _register_assets (ds_type : DatasourceType)
    (asset_type_lookup : TypeLookup.handle) : M TypeLookup.handle :=
  register_assets_loop ds_type (asset_types ds_type) asset_type_lookup.

(** [_register_datasource_and_factory_method].  A stored factory is a
    function object, which is truthy, so [if pre_existing] holds exactly when
    the name is in the table. *)
Definition _register_datasource_and_factory_method
    (ds_type : DatasourceType) (factory_fn : fn_ref) (ds_type_name : string)
    (datasource_type_lookup : TypeLookup.handle) : M (string * TypeLookup.handle) :=
  let method_name := "add_" +:+ ds_type_name in
  st ← get_state;
  match dict_get (source_factories st) method_name with
  | Some pre_existing =>
      raise (TypeRegistrationError
               ("'" +:+ ds_type_name +:+ "' - `sources." +:+ method_name
                  +:+ "()` factory already exists") None)
  | None =>
      h ← lift (TypeLookup.setitem datasource_type_lookup (cls_ref ds_type) ds_type_name);
      modify (set_fn_name factory_fn method_name);;
      modify (set_source_factory method_name factory_fn);;
      mret (ds_type_name, h)
  end.

(** The [with] statement of [register_types_and_ds_factory]: one transaction
    on the class-wide map and one on the map of [ds_type].  When the body
    raises, both maps are rolled back and the exception goes on; when it
    returns, both are committed, the one opened last first. *)
Definition with_transactions {A : Type} (ds_type : DatasourceType)
    (body : TypeLookup.handle → TypeLookup.handle → M (A * TypeLookup.handle * TypeLookup.handle))
    : M A := λ st,
  let ds_type_lookup := TypeLookup.transaction (type_lookup st) in
  let asset_type_lookup := TypeLookup.transaction (_type_lookup st (cls_ref ds_type)) in
  match body ds_type_lookup asset_type_lookup st with
  | (inl exc, st') =>
      (inl exc,
       set_type_lookup (TypeLookup.rollback ds_type_lookup)
         (set__type_lookup (cls_ref ds_type) (TypeLookup.rollback asset_type_lookup) st'))
  | (inr (a, ds_type_lookup', asset_type_lookup'), st') =>
      (inr a,
       set_type_lookup (TypeLookup.commit ds_type_lookup')
         (set__type_lookup (cls_ref ds_type) (TypeLookup.commit asset_type_lookup') st'))
  end.

(** [register_types_and_ds_factory(ds_type, factory_fn)] *)
Definition register_types_and_ds_factory (ds_type : DatasourceType) (factory_fn : fn_ref)
    : M unit :=
  details ← lift (_get_field_details ds_type "type");
  let ds_type_name := default_value details in
  if negb (Py.truthy ds_type_name) then
    raise (TypeRegistrationError
             ("`" +:+ cls_name ds_type
                +:+ "` is missing a `type` attribute with an assigned string value") None)
  else
    with_transactions ds_type (λ ds_type_lookup asset_type_lookup,
      asset_type_lookup' ← _register_assets ds_type asset_type_lookup;
      '(_, ds_type_lookup') ← _register_datasource_and_factory_method
                                 ds_type factory_fn (Py.str ds_type_name) ds_type_lookup;
      mret (tt, ds_type_lookup', asset_type_lookup')).

(** ** [repr] of strings and lists of strings

    The message of the facade's [AttributeError] interpolates a list of
    names, which Python renders with [repr].  A character here is a code
    point below 256. *)

Module Repr.

Definition dquote : ascii := "034"%char.
Definition squote : ascii := "'"%char.
Definition backslash : ascii := "\"%char.

Definition hex_digit (n : nat) : ascii :=
  nth n (list_ascii_of_string "0123456789abcdef") "0"%char.

Fixpoint contains (c : ascii) (s : string) : bool :=
  match s with
  | EmptyString => false
  | String c' s' => bool_decide (c' = c) || contains c s'
  end.

(** [str.isprintable] on code points below 256. *)
Definition printable (c : ascii) : bool :=
  let n := nat_of_ascii c in
  ((32 <=? n) && (n <=? 126)) || ((161 <=? n) && negb (n =? 173)).

Definition escape (quote c : ascii) : string :=
  if bool_decide (c = quote) || bool_decide (c = backslash) then String backslash (String c "")
  else if bool_decide (c = "009"%char) then "\t"
  else if bool_decide (c = "010"%char) then "\n"
  else if bool_decide (c = "013"%char) then "\r"
  else if printable c then String c ""
  else
    let n := nat_of_ascii c in
    "\x" +:+ String (hex_digit (n / 16)) (String (hex_digit (n mod 16)) "").

Fixpoint escape_all (quote : ascii) (s : string) : string :=
  match s with
  | EmptyString => ""
  | String c s' => escape quote c +:+ escape_all quote s'
  end.

(** [repr(s)]: double quotes only when [s] has a single quote and no
    double quote. *)
Definition repr_str (s : string) : string :=
  let quote := if contains squote s && negb (contains dquote s) then dquote else squote in
  String quote (escape_all quote s) +:+ String quote "".

Fixpoint join (sep : string) (l : list string) : string :=
  match l with
  | [] => ""
  | [x] => x
  | x :: l' => x +:+ sep +:+ join sep l'
  end.

(** [repr(l)] for a list of strings. *)
Definition repr_list (l : list string) : string :=
  "[" +:+ join ", " (repr_str <$> l) +:+ "]".

(** [s] occurs in [t]. *)
Definition occurs_in (s t : string) : Prop :=
  ∃ pre post : string, t = pre +:+ s +:+ post.

End Repr.

(** ** The facade and the generated operations

    Datasource instances, data assets, the data context and the logger are
    outside this module.  They are objects of an external world [W] reached
    through the operations the code invokes on them, each of which may
    change the world and may raise. *)

Section Facade.

Context {W obj Kwargs : Type}.

(** [ds_constructor(name=name, **kwargs)] for a stored factory. *)
Variable call_factory : fn_ref → string → Kwargs → SE W obj.

(** [datasource._data_context = context] *)
Variable set_data_context : obj → obj → SE W unit.

(** [context._attach_datasource_to_context(datasource)] *)
Variable _attach_datasource_to_context : obj → obj → SE W unit.

(** [logger.debug(msg)] *)
Variable logger_debug : string → W → W.

(** [str(o)] *)
Variable str_of : obj → W → string.

(** Whether a function object has a [__signature__] attribute.  A plain
    function has none; the attribute is there once it has been assigned.
    This module assigns it on the functions it generates, never on a
    factory it is handed. *)
Variable has_signature : fn_ref → bool.

(** The members [object.__dir__] lists for the facade. *)
Variable super_dir : list string.

(** [asset_type(name=name, **kwargs)] *)
Variable construct : type_ref → string → Kwargs → SE W obj.

(** [self.add_asset(asset)] *)
Variable add_asset : obj → obj → SE W obj.

(** [asset.build_batch_request()] *)
Variable build_batch_request : obj → SE W obj.

(** [self._data_context] of a datasource instance *)
Variable data_context_of : obj → SE W obj.

(** [context.get_validator(batch_request=batch_request)] *)
Variable get_validator : obj → obj → SE W obj.

(** The [factories] property: the keys of the table, in dict order. *)
Definition factories (st : State) : list string := dict_keys (source_factories st).

(** [d[k]], raising [KeyError]. *)
Definition dict_getitem {V : Type} (d : list (string * V)) (k : string) : exn + V :=
  match dict_get d k with
  | Some v => inr v
  | None => inl (KeyError k)
  end.

Definition is_KeyError (e : exn) : bool :=
  match e with KeyError _ => true | _ => false end.

(** The message [wrapped] logs when the context cannot be set. *)
Definition attach_failure_message (name datasource : string) : string :=
  "Failed to attach data context to datasource " +:+ String Repr.dquote name
    +:+ String Repr.dquote " because " +:+ datasource
    +:+ " has no attribute " +:+ String Repr.dquote "_data_context"
    +:+ String Repr.dquote ".".

(** The closure [wrapped] that [__getattr__] returns, over the stored
    factory and the facade's [_data_context]. *)
Definition wrapped (self_data_context : obj) (ds_constructor : fn_ref)
    (name : string) (kwargs : Kwargs) : SE W obj :=
  datasource ← call_factory ds_constructor name kwargs;
  try_except (set_data_context datasource self_data_context) is_ValueError
    (λ _, w ← get_state;
          modify (logger_debug (attach_failure_message name (str_of datasource w))));;
  _attach_datasource_to_context self_data_context datasource;;
  mret datasource.

(** [ds_constructor.__signature__], read when [__getattr__] copies it onto
    [wrapped]: an [AttributeError] for a function object without one. *)
Definition read_signature (ds_constructor : fn_ref) : exn + unit :=
  if has_signature ds_constructor then inr tt
  else inl (AttributeError "'function' object has no attribute '__signature__'").

(** [__getattr__(self, attr_name)]: the hook Python runs for a name that
    ordinary attribute lookup does not find.  The [try] block looks the
    factory up, builds [wrapped] and copies [__doc__], which every function
    has, and [__signature__] onto it; the handler names [KeyError] only, so
    the [AttributeError] of a missing [__signature__] goes through. *)
Definition __getattr__ (st : State) (self_data_context : obj) (attr_name : string)
    : exn + (string → Kwargs → SE W obj) :=
  match
    match dict_getitem (source_factories st) attr_name with
    | inl e => inl e
    | inr ds_constructor =>
        match read_signature ds_constructor with
        | inl e => inl e
        | inr _ => inr (wrapped self_data_context ds_constructor)
        end
    end
  with
  | inr wrapped_fn => inr wrapped_fn
  | inl e =>
      if is_KeyError e then
        inl (AttributeError
               ("No factory " +:+ attr_name +:+ " in " +:+ Repr.repr_list (factories st)))
      else inl e
  end.

(** [__dir__(self)] *)
Definition __dir__ (st : State) : list string := factories st ++ super_dir.

(** The generated [_add_asset_factory], closed over [asset_type]. *)
Definition _add_asset_factory (asset_type : type_ref) (self : obj)
    (name : string) (kwargs : Kwargs) : SE W obj :=
  asset ← construct asset_type name kwargs;
  add_asset self asset.

(** [asset_name or DEFAULT_PANDAS_DATA_ASSET_NAME]: the left operand when
    it is truthy, the constant otherwise. *)
Definition asset_name_or_default (asset_name : Py.value) : string :=
  if Py.truthy asset_name then Py.str asset_name else DEFAULT_PANDAS_DATA_ASSET_NAME.

(** What [_read_asset_factory] does with the constructed asset. *)
Definition read_constructed_asset (self asset : obj) : SE W obj :=
  add_asset self asset;;
  batch_request ← build_batch_request asset;
  context ← data_context_of self;
  get_validator context batch_request.

(** The generated [_read_asset_factory], closed over [asset_type];
    [asset_name] is [None] when the argument is omitted. *)
Definition _read_asset_factory (asset_type : type_ref) (self : obj)
    (asset_name : Py.value) (kwargs : Kwargs) : SE W obj :=
  let name := asset_name_or_default asset_name in
  asset ← construct asset_type name kwargs;
  read_constructed_asset self asset.

End Facade.

(** ** A sequence of registration calls

    The calls that the loading of plugins makes one after the other; a call
    that raises is survived by its caller.  The result lists the calls that
    went through, with the final store. *)

Fixpoint register_all (calls : list (DatasourceType * fn_ref)) (st : State)
    : list (DatasourceType * fn_ref) * State :=
  match calls with
  | [] => ([], st)
  | (ds_type, factory_fn) :: calls' =>
      match register_types_and_ds_factory ds_type factory_fn st with
      | (inr _, st') =>
          let '(ok, st'') := register_all calls' st' in
          ((ds_type, factory_fn) :: ok, st'')
      | (inl _, st') => register_all calls' st'
      end
  end.

(** ** Sample classes and a sample world *)

Module Sample.

(** A pydantic model class; [type_default] is the default of its [type]
    field, if it has the field. *)
Definition model (ref : type_ref) (name : string) (type_default : option Py.value)
    : PyClass := {|
  cls_ref := ref;
  cls_name := name;
  cls_fields :=
    match type_default with
    | Some v => {[ "type" := {| field_default := v; field_type_ := "str" |} ]}
    | None => ∅
    end
|}.

Definition FileAsset : PyClass := model 2 "FileAsset" (Some (Py.PyStr "file")).

(** An asset class that assigns no [type]. *)
Definition UntypedAsset : PyClass := model 3 "UntypedAsset" (Some Py.PyNone).

Definition CsvDatasource : DatasourceType :=
  {| ds_class := model 1 "CsvDatasource" (Some (Py.PyStr "csv"));
     asset_types := [FileAsset] |}.

(** A second class that declares the tag of [CsvDatasource]. *)
Definition OtherCsvDatasource : DatasourceType :=
  {| ds_class := model 4 "OtherCsvDatasource" (Some (Py.PyStr "csv"));
     asset_types := [] |}.

(** A class whose second asset type has no tag. *)
Definition BrokenDatasource : DatasourceType :=
  {| ds_class := model 5 "BrokenDatasource" (Some (Py.PyStr "broken"));
     asset_types := [FileAsset; UntypedAsset] |}.



Definition SqlDatasource : DatasourceType :=
  {| ds_class := model 8 "SqlDatasource" (Some (Py.PyStr "sql"));
     asset_types := [] |}.

(** Function objects: the factories handed to the registry, and a method a
    user wrote. *)
Definition csv_factory : fn_ref := 10.
Definition other_factory : fn_ref := 11.
Definition sql_factory : fn_ref := 12.
Definition user_method : fn_ref := 77.

(** The store after [CsvDatasource] has been registered. *)
Definition csv_registered : State :=
  (register_types_and_ds_factory CsvDatasource csv_factory initial_state).2.

(** A store in which [CsvDatasource] defines [read_file] itself, and one
    in which it defines [add_file_asset] itself. *)
Definition with_user_read : State :=
  setattr (cls_ref CsvDatasource) "read_file" (UserDefined user_method) initial_state.

Definition with_user_add : State :=
  setattr (cls_ref CsvDatasource) "add_file_asset" (UserDefined user_method) initial_state.

(** A world that only keeps what was logged and what was attached.
    Objects are numbers; a factory builds the object numbered like it;
    setting the context raises [failure] if there is one. *)
Record World : Type := { logged : list string; attached : list nat }.

Definition empty_world : World := {| logged := []; attached := [] |}.

Definition call_factory (ds_constructor : fn_ref) (name : string) (kwargs : unit)
    : SE World nat := mret ds_constructor.

Definition set_data_context (failure : option exn) (datasource context : nat)
    : SE World unit :=
  match failure with
  | Some e => raise e
  | None => mret tt
  end.

Definition _attach_datasource_to_context (context datasource : nat) : SE World unit :=
  modify (λ w, {| logged := logged w; attached := attached w ++ [datasource] |}).

Definition logger_debug (msg : string) (w : World) : World :=
  {| logged := logged w ++ [msg]; attached := attached w |}.

Definition str_of (o : nat) (w : World) : string := "<datasource>".

(** Every sample factory has been given a [__signature__]. *)
Definition has_signature (fn : fn_ref) : bool := true.

(** The asset built from a name is numbered by the length of the name. *)
Definition construct (asset_type : type_ref) (name : string) (kwargs : unit)
    : SE World nat := mret (String.length name).

Definition add_asset (self asset : nat) : SE World nat := mret asset.

Definition build_batch_request (asset : nat) : SE World nat := mret asset.

Definition data_context_of (self : nat) : SE World nat := mret 0.

Definition get_validator (context batch_request : nat) : SE World nat := mret batch_request.

End Sample.

(** ** Notions used to state the properties *)

(** The tag-to-type maps, the factory table and the names of the function
    objects agree in two stores. *)
Definition same_tables (st st' : State) : Prop :=
  type_lookup st' = type_lookup st ∧
  (∀ c, _type_lookup st' c = _type_lookup st c) ∧
  source_factories st' = source_factories st ∧
  fn_name st' = fn_name st.

(** The store that [_bind_asset_factory_method_if_not_present] leaves. *)
Definition bound (ds_type : DatasourceType) (asset_type : PyClass) (asset_type_name : string)
    (st : State) : State :=
  let add_name := "add_" +:+ asset_type_name +:+ "_asset" in
  match __dict__ st (cls_ref ds_type) !! add_name with
  | Some _ => st
  | None =>
      setattr (cls_ref ds_type) ("read_" +:+ asset_type_name)
        (ReadAssetFactory (cls_ref asset_type) "_read_asset_factory")
        (setattr (cls_ref ds_type) add_name (AddAssetFactory (cls_ref asset_type) add_name) st)
  end.

(** The tag a datasource class declares: the default of its [type] field,
    [None] when it has no value (or no such field). *)
Definition declared_type (c : PyClass) : Py.value :=
  match _get_field_details c "type" with
  | inr details => default_value details
  | inl _ => Py.PyNone
  end.

(** The name of the factory derived from the declared tag. *)
Definition method_name_of (ds_type : DatasourceType) : string :=
  "add_" +:+ Py.str (declared_type ds_type).

(** The handle the [with] statement opens on the class-wide map. *)
Definition ds_handle (st : State) : TypeLookup.handle :=
  TypeLookup.transaction (type_lookup st).

(** The handle it opens on the map of [ds_type]. *)
Definition asset_handle (ds_type : DatasourceType) (st : State) : TypeLookup.handle :=
  TypeLookup.transaction (_type_lookup st (cls_ref ds_type)).

(** The store after a registration that failed inside the [with] block:
    [st] is the store before the call and [st1] the store in which the
    exception was raised. *)
Definition rolled_back_state (ds_type : DatasourceType) (st st1 : State) : State :=
  set_type_lookup (TypeLookup.rollback (ds_handle st))
    (set__type_lookup (cls_ref ds_type) (TypeLookup.rollback (asset_handle ds_type st)) st1).

(** The store after a registration that went through: [st1] is the store
    after the asset types, [h1] and [h2] the handles at the end of the
    block. *)
Definition committed_state (ds_type : DatasourceType) (factory_fn : fn_ref)
    (h1 h2 : TypeLookup.handle) (st1 : State) : State :=
  set_type_lookup (TypeLookup.commit h1)
    (set__type_lookup (cls_ref ds_type) (TypeLookup.commit h2)
       (set_source_factory (method_name_of ds_type) factory_fn
          (set_fn_name factory_fn (method_name_of ds_type) st1))).

(** The attribute is one of the two generated operations. *)
Definition is_generated (o : option method) : Prop :=
  match o with
  | Some (AddAssetFactory _ _) | Some (ReadAssetFactory _ _) => True
  | _ => False
  end.

(** Between two stores, attributes were only added to [c0] or rebound there
    to generated operations. *)
Definition only_generated (c0 : type_ref) (st st' : State) : Prop :=
  ∀ c n,
    (__dict__ st' c !! n = __dict__ st c !! n ∨ (c = c0 ∧ is_generated (__dict__ st' c !! n)))
    ∧ (is_Some (__dict__ st c !! n) → is_Some (__dict__ st' c !! n)).

(** A class that has [add_<tag>_asset] keeps it, and nothing is bound to its
    [read_<tag>]. *)
Definition keeps_defined (c0 : type_ref) (tag : string) (st st' : State) : Prop :=
  ∀ u, __dict__ st c0 !! ("add_" +:+ tag +:+ "_asset") = Some u →
       __dict__ st' c0 !! ("add_" +:+ tag +:+ "_asset") = Some u ∧
       __dict__ st' c0 !! ("read_" +:+ tag) = __dict__ st c0 !! ("read_" +:+ tag).

(** ** The default pandas datasource and the iteration over the types *)

Definition DEFAULT_PANDAS_DATASOURCE_NAME : string := "default_pandas_datasource".

(** What [pandas_default] raises: its own [DefaultPandasDatasourceError],
    which derives from [Exception] directly, or an exception of the code it
    calls. *)
Inductive pandas_default_exn : Type :=
| DefaultPandasDatasourceError (msg : string)
| Raised (e : exn).

(** The message of [DefaultPandasDatasourceError]. *)
Definition legacy_datasource_message : string :=
  "A datasource with a legacy type already exists with the name: "
    +:+ String Repr.dquote DEFAULT_PANDAS_DATASOURCE_NAME +:+ String Repr.dquote ". "
    +:+ "Please rename this datasources if you wish to use the pandas_default `PandasDatasource`.".

Section PandasDefault.

Context {W obj Kwargs : Type}.

Variable call_factory : fn_ref → string → Kwargs → SE W obj.
Variable set_data_context : obj → obj → SE W unit.
Variable _attach_datasource_to_context : obj → obj → SE W unit.
Variable logger_debug : string → W → W.
Variable str_of : obj → W → string.
Variable has_signature : fn_ref → bool.

(** [context.datasources.get(name)]: [None] when the context has no
    datasource of that name. *)
Variable datasources_get : obj → string → SE W (option obj).

(** [isinstance(o, PandasDatasource)] *)
Variable is_PandasDatasource : obj → bool.

(** [bool(o)]: true for an object whose class defines neither [__bool__]
    nor [__len__]. *)
Variable bool_of : obj → bool.

(** A call without keyword arguments other than [name]. *)
Variable no_kwargs : Kwargs.

(** [existing_datasource and not isinstance(existing_datasource,
    PandasDatasource)], as a truth value; [None] is falsy. *)
Definition is_legacy_conflict (existing_datasource : option obj) : bool :=
  match existing_datasource with
  | Some d => bool_of d && negb (is_PandasDatasource d)
  | None => false
  end.

(** [self._data_context.sources.add_pandas(name=...)]: [sources] of the
    context is a facade of this class over the context itself, so the name
    [add_pandas] goes through [__getattr__]. *)
Definition add_pandas (st : State) (self_data_context : obj) (name : string)
    : W → (pandas_default_exn + obj) * W := λ w,
  match __getattr__ call_factory set_data_context _attach_datasource_to_context
          logger_debug str_of has_signature st self_data_context "add_pandas" with
  | inl e => (inl (Raised e), w)
  | inr factory =>
      match factory name no_kwargs w with
      | (inl e, w') => (inl (Raised e), w')
      | (inr datasource, w') => (inr datasource, w')
      end
  end.

(** The function under the [pandas_default] property, its getter.  What
    the expression [sources.pandas_default] evaluates to is
    [getattr_pandas_default] below: the class defines [__getattr__], which
    takes over when the getter raises an [AttributeError]. *)
Definition pandas_default (st : State) (self_data_context : obj)
    : W → (pandas_default_exn + obj) * W := λ w,
  match datasources_get self_data_context DEFAULT_PANDAS_DATASOURCE_NAME w with
  | (inl e, w1) => (inl (Raised e), w1)
  | (inr existing_datasource, w1) =>
      if is_legacy_conflict existing_datasource then
        (inl (DefaultPandasDatasourceError legacy_datasource_message), w1)
      else
        match existing_datasource with
        | Some d =>
            if bool_of d then (inr d, w1)
            else add_pandas st self_data_context DEFAULT_PANDAS_DATASOURCE_NAME w1
        | None => add_pandas st self_data_context DEFAULT_PANDAS_DATASOURCE_NAME w1
        end
  end.

(** What the expression [sources.pandas_default] evaluates to: the
    datasource the getter returns, or what [__getattr__] returns. *)
Inductive attribute : Type :=
| Datasource (datasource : obj)
| Factory (wrapped_fn : string → Kwargs → SE W obj).

(** The expression [sources.pandas_default].  The class defines
    [__getattr__], so when the getter of the property raises an
    [AttributeError] Python drops it and calls
    [__getattr__("pandas_default")]; every other outcome of the getter is
    the outcome of the expression. *)
Definition getattr_pandas_default (st : State) (self_data_context : obj)
    : W → (pandas_default_exn + attribute) * W := λ w,
  match pandas_default st self_data_context w with
  | (inr datasource, w') => (inr (Datasource datasource), w')
  | (inl (Raised (AttributeError _)), w') =>
      match __getattr__ call_factory set_data_context _attach_datasource_to_context
              logger_debug str_of has_signature st self_data_context "pandas_default" with
      | inl e => (inl (Raised e), w')
      | inr wrapped_fn => (inr (Factory wrapped_fn), w')
      end
  | (inl e, w') => (inl e, w')
  end.

End PandasDefault.

(** Modelled from the spec: a lookup in the bidirectional map fails with
    [NotFoundError] when the key is absent (section 4.1). *)
Inductive lookup_exn : Type :=
| NotFoundError (key : string).

(** Modelled from the spec: [lookup[tag]], the type registered under a
    tag. *)
Definition type_lookup_getitem (m : TypeLookup.t) (tag : string) : lookup_exn + type_ref :=
  match TypeLookup.get m tag with
  | Some ty => inr ty
  | None => inl (NotFoundError tag)
  end.

(** What a generator has produced: the values it yielded, and the exception
    that ended it, if one did. *)
Definition yielded (A : Type) : Type := list A * option lookup_exn.

(** The inner loop of [_iter_all_registered_types], over the names of the
    map [m] of one datasource class. *)
Fixpoint iter_asset_types (m : TypeLookup.t) (asset_names : list string)
    : yielded (string * type_ref) :=
  match asset_names with
  | [] => ([], None)
  | asset_name :: rest =>
      match type_lookup_getitem m asset_name with
      | inl e => ([], Some e)
      | inr asset_type =>
          let '(ys, end_) := iter_asset_types m rest in
          ((asset_name, asset_type) :: ys, end_)
      end
  end.

(** The outer loop, over the names of the class-wide map. *)
Fixpoint iter_datasource_types (st : State) (ds_names : list string)
    : yielded (string * type_ref) :=
  match ds_names with
  | [] => ([], None)
  | ds_name :: rest =>
      match type_lookup_getitem (type_lookup st) ds_name with
      | inl e => ([], Some e)
      | inr ds_type =>
          match iter_asset_types (_type_lookup st ds_type)
                  (TypeLookup.names (_type_lookup st ds_type)) with
          | (ys, Some e) => ((ds_name, ds_type) :: ys, Some e)
          | (ys, None) =>
              let '(zs, end_) := iter_datasource_types st rest in
              ((ds_name, ds_type) :: ys ++ zs, end_)
          end
      end
  end.

(** [_iter_all_registered_types()] *)
Definition _iter_all_registered_types (st : State) : yielded (string * type_ref) :=
  iter_datasource_types st (TypeLookup.names (type_lookup st)).

(** ** More notions and samples *)

(** An asset type that [_register_assets] does not skip. *)
Definition is_public (t : PyClass) : bool := negb (Py.startswith (cls_name t) "_").

(** The message of the [TypeRegistrationError] that [_register_assets]
    raises for the asset type [t] of [ds_type]. *)
Definition asset_error_message (ds_type : DatasourceType) (t : PyClass) : string :=
  "No `type` field found for `" +:+ cls_name ds_type +:+ ".asset_types` -> `"
    +:+ cls_name t +:+ "` unable to register asset type".

(** Both generated operations of the tag [n] are bound on the class [c]. *)
Definition generated_for (c : type_ref) (n : string) (st : State) : Prop :=
  ∃ a,
    __dict__ st c !! ("add_" +:+ n +:+ "_asset")
      = Some (AddAssetFactory a ("add_" +:+ n +:+ "_asset")) ∧
    __dict__ st c !! ("read_" +:+ n) = Some (ReadAssetFactory a "_read_asset_factory").

(** The map has the pair, in both directions. *)
Definition paired (m : TypeLookup.t) (tag : string) (ty : type_ref) : Prop :=
  TypeLookup.get m tag = Some ty ∧ TypeLookup.getTag m ty = Some tag.

(** A character that [repr] writes as it is between single quotes. *)
Definition plain_char (c : ascii) : bool :=
  Repr.printable c && negb (bool_decide (c = Repr.squote))
    && negb (bool_decide (c = Repr.dquote)) && negb (bool_decide (c = Repr.backslash)).

(** A name made of such characters, as the names of Python identifiers
    are. *)
Fixpoint plain_name (s : string) : bool :=
  match s with
  | EmptyString => true
  | String c s' => plain_char c && plain_name s'
  end.

Module MoreSamples.

(** A private asset class, and classes that list it. *)
Definition _PrivateAsset : PyClass := Sample.model 20 "_PrivateAsset" None.

Definition FieldlessAsset : PyClass := Sample.model 21 "FieldlessAsset" None.

Definition TableAsset : PyClass := Sample.model 22 "TableAsset" (Some (Py.PyStr "table")).

Definition PrivateOnlyDatasource : DatasourceType :=
  {| ds_class := Sample.model 23 "PrivateOnlyDatasource" (Some (Py.PyStr "private_only"));
     asset_types := [_PrivateAsset] |}.

Definition UntypedFirstDatasource : DatasourceType :=
  {| ds_class := Sample.model 24 "UntypedFirstDatasource" (Some (Py.PyStr "untyped_first"));
     asset_types := [_PrivateAsset; Sample.UntypedAsset; Sample.FileAsset] |}.

Definition FieldlessFirstDatasource : DatasourceType :=
  {| ds_class := Sample.model 25 "FieldlessFirstDatasource" (Some (Py.PyStr "fieldless_first"));
     asset_types := [FieldlessAsset] |}.

Definition PandasDatasource : DatasourceType :=
  {| ds_class := Sample.model 26 "PandasDatasource" (Some (Py.PyStr "pandas"));
     asset_types := [Sample.FileAsset; TableAsset] |}.

Definition pandas_factory : fn_ref := 30.

Definition pandas_registered : State :=
  (register_types_and_ds_factory PandasDatasource pandas_factory initial_state).2.

(** The context of the sample world holds the attached datasources under
    the one default name; the sample pandas datasource is object 30 and
    object 99 is a legacy datasource. *)
Definition datasources_get (context : nat) (name : string) : SE Sample.World (option nat) :=
  λ w, (inr (last (Sample.attached w)), w).

Definition is_PandasDatasource (o : nat) : bool := bool_decide (o = 30).

Definition bool_of (o : nat) : bool := true.

Definition legacy_world : Sample.World :=
  {| Sample.logged := []; Sample.attached := [99] |}.

(** Factories that are plain functions, without a [__signature__]. *)
Definition plain_function (fn : fn_ref) : bool := false.



(** A factory that raises. *)
Definition failing_factory (ds_constructor : fn_ref) (name : string) (kwargs : unit)
    : SE Sample.World nat := raise (ValueError "cannot build").

(** A construction that raises. *)
Definition failing_construct (asset_type : type_ref) (name : string) (kwargs : unit)
    : SE Sample.World nat := raise (ValueError "cannot build").

End MoreSamples.

(** * Properties *)

(** ** Running the monad *)

Lemma run_bind {S A B : Type} (m : SE S A) (k : A → SE S B) (st : S) :
  (m ≫= k) st =
  match m st with
  | (inl e, st') => (inl e, st')
  | (inr a, st') => k a st'
  end.
Proof. reflexivity. Qed.

Lemma run_ret {S A : Type} (a : A) (st : S) : (mret a : SE S A) st = (inr a, st).
Proof. reflexivity. Qed.

Lemma run_raise {S A : Type} (e : exn) (st : S) : (raise e : SE S A) st = (inl e, st).
Proof. reflexivity. Qed.

Ltac run :=
  repeat (rewrite ?run_bind, ?run_ret, ?run_raise;
          unfold modify, get_state, lift, try_except; simpl).

(** ** The bidirectional map and its transactions *)

(** A staged [set] is the [set] of the map on what the handle shows, and it
    leaves the committed entries alone. *)
Lemma setitem_set h ty tag :
  match TypeLookup.setitem h ty tag, TypeLookup.set (TypeLookup.view h) ty tag with
  | inr h', inr m' => TypeLookup.view h' = m' ∧ TypeLookup.committed h' = TypeLookup.committed h
  | inl e, inl e' => e = e'
  | _, _ => False
  end.
Proof.
  unfold TypeLookup.setitem, TypeLookup.set.
  destruct (TypeLookup.check _ ty tag); [done|].
  split; [|done]. unfold TypeLookup.view. simpl. by rewrite app_assoc.
Qed.

(** Rolling back gives the map on which the transaction was opened,
    whatever was staged. *)
Lemma rollback_transaction m : TypeLookup.rollback (TypeLookup.transaction m) = m.
Proof. reflexivity. Qed.

Lemma rollback_setitem h ty tag h' :
  TypeLookup.setitem h ty tag = inr h' → TypeLookup.rollback h' = TypeLookup.rollback h.
Proof.
  unfold TypeLookup.setitem. destruct (TypeLookup.check _ ty tag); [done|].
  by intros [= <-].
Qed.

(** Committing a transaction in which nothing was staged changes nothing. *)
Lemma commit_transaction m : TypeLookup.commit (TypeLookup.transaction m) = m.
Proof. unfold TypeLookup.commit, TypeLookup.view. simpl. apply app_nil_r. Qed.

(** ** Python dicts *)

(** A key that is not in the dict is appended. *)
Lemma dict_set_fresh {V : Type} (d : list (string * V)) k v :
  dict_get d k = None → dict_set d k v = d ++ [(k, v)].
Proof.
  induction d as [|[k' v'] d IH]; simpl; [done|].
  destruct (bool_decide (k' = k)); [done|].
  intros H. by rewrite IH.
Qed.

(** ** What a registration may touch *)

Lemma same_tables_refl st : same_tables st st.
Proof. by repeat split. Qed.

Lemma same_tables_trans st1 st2 st3 :
  same_tables st1 st2 → same_tables st2 st3 → same_tables st1 st3.
Proof.
  intros (?&Hl&?&?) (?&Hl'&?&?).
  split; [congruence|]. split; [|split; congruence].
  intros c. by rewrite Hl', Hl.
Qed.

Lemma run_bind_asset_factory ds_type asset_type asset_type_name st :
  _bind_asset_factory_method_if_not_present ds_type asset_type asset_type_name st
  = (inr tt, bound ds_type asset_type asset_type_name st).
Proof.
  unfold _bind_asset_factory_method_if_not_present, bound. run.
  destruct (__dict__ st (cls_ref ds_type) !! _) eqn:E.
  - rewrite bool_decide_eq_true_2; [done | by eexists].
  - rewrite bool_decide_eq_false_2; [done | by intros [? ?]].
Qed.

(** One iteration of the loop either leaves the store alone or binds the
    operations of one asset type. *)
Lemma run_register_asset ds_type t h st :
  (∃ r, register_asset ds_type t h st = (r, st)) ∨
  (∃ asset_type_name h',
      register_asset ds_type t h st = (inr h', bound ds_type t asset_type_name st)).
Proof.
  unfold register_asset.
  destruct (Py.startswith _ _); [left; by eexists|].
  destruct (register_asset_try t h) as [e|[n h']].
  - left. destruct (bad_field_exc e); by eexists.
  - right. exists n, h'. run. by rewrite run_bind_asset_factory.
Qed.

(** Any relation on stores that is a preorder and holds across [bound]
    holds across the whole loop of [_register_assets]. *)
Lemma register_assets_loop_preserves (R : State → State → Prop) ds_type :
  (∀ st, R st st) →
  (∀ st1 st2 st3, R st1 st2 → R st2 st3 → R st1 st3) →
  (∀ t n st, R st (bound ds_type t n st)) →
  ∀ ts h st, R st (register_assets_loop ds_type ts h st).2.
Proof.
  intros Hrefl Htrans Hstep ts.
  induction ts as [|t ts IH]; intros h st; simpl; [apply Hrefl|].
  rewrite run_bind.
  destruct (run_register_asset ds_type t h st) as [[r ->]|(n & h' & ->)].
  - destruct r as [e|h']; [apply Hrefl | apply IH].
  - eapply Htrans; [apply Hstep | apply IH].
Qed.

Lemma bound_same_tables ds_type t n st : same_tables st (bound ds_type t n st).
Proof.
  unfold bound. destruct (_ !! _); [apply same_tables_refl|].
  by repeat split.
Qed.

Lemma register_assets_same_tables ds_type h st :
  same_tables st (_register_assets ds_type h st).2.
Proof.
  unfold _register_assets.
  apply (register_assets_loop_preserves same_tables);
    eauto using same_tables_refl, same_tables_trans, bound_same_tables.
Qed.

(** ** The two halves of a registration *)

Arguments _register_assets : simpl never.
Arguments _register_datasource_and_factory_method : simpl never.

Lemma run_register_datasource_and_factory_method ds_type factory_fn ds_type_name h st :
  _register_datasource_and_factory_method ds_type factory_fn ds_type_name h st =
  match dict_get (source_factories st) ("add_" +:+ ds_type_name) with
  | Some _ =>
      (inl (TypeRegistrationError
              ("'" +:+ ds_type_name +:+ "' - `sources." +:+ ("add_" +:+ ds_type_name)
                 +:+ "()` factory already exists") None), st)
  | None =>
      match TypeLookup.setitem h (cls_ref ds_type) ds_type_name with
      | inl e => (inl e, st)
      | inr h' =>
          (inr (ds_type_name, h'),
           set_source_factory ("add_" +:+ ds_type_name) factory_fn
             (set_fn_name factory_fn ("add_" +:+ ds_type_name) st))
      end
  end.
Proof.
  unfold _register_datasource_and_factory_method. run.
  destruct (dict_get _ _); [done|].
  by destruct (TypeLookup.setitem _ _ _).
Qed.

(** The whole call, branch by branch. *)
Lemma run_register ds_type factory_fn st :
  register_types_and_ds_factory ds_type factory_fn st =
  match _get_field_details ds_type "type" with
  | inl e => (inl e, st)
  | inr details =>
      let ds_type_name := Py.str (default_value details) in
      if Py.truthy (default_value details) then
        match _register_assets ds_type (asset_handle ds_type st) st with
        | (inl e, st1) => (inl e, rolled_back_state ds_type st st1)
        | (inr h2, st1) =>
            match dict_get (source_factories st1) ("add_" +:+ ds_type_name) with
            | Some _ =>
                (inl (TypeRegistrationError
                        ("'" +:+ ds_type_name +:+ "' - `sources." +:+ ("add_" +:+ ds_type_name)
                           +:+ "()` factory already exists") None),
                 rolled_back_state ds_type st st1)
            | None =>
                match TypeLookup.setitem (ds_handle st) (cls_ref ds_type) ds_type_name with
                | inl e => (inl e, rolled_back_state ds_type st st1)
                | inr h1 =>
                    (inr tt,
                     set_type_lookup (TypeLookup.commit h1)
                       (set__type_lookup (cls_ref ds_type) (TypeLookup.commit h2)
                          (set_source_factory ("add_" +:+ ds_type_name) factory_fn
                             (set_fn_name factory_fn ("add_" +:+ ds_type_name) st1))))
                end
            end
        end
      else
        (inl (TypeRegistrationError
                ("`" +:+ cls_name ds_type
                   +:+ "` is missing a `type` attribute with an assigned string value") None),
         st)
  end.
Proof.
  unfold register_types_and_ds_factory. run.
  destruct (_get_field_details ds_type "type") as [e0|details]; simpl; [done|].
  destruct (Py.truthy (default_value details)); simpl; [|done].
  unfold with_transactions. fold (asset_handle ds_type st) (ds_handle st). run.
  destruct (_register_assets ds_type (asset_handle ds_type st) st) as [[e1|h2] st1]; [done|].
  run. rewrite run_register_datasource_and_factory_method.
  destruct (dict_get _ _); [done|].
  by destruct (TypeLookup.setitem _ _ _).
Qed.

(** A registration that fails leaves either the store it found or the store
    left by [_register_assets], rolled back. *)
Lemma register_failure ds_type factory_fn st e st' :
  register_types_and_ds_factory ds_type factory_fn st = (inl e, st') →
  st' = st ∨
  st' = rolled_back_state ds_type st (_register_assets ds_type (asset_handle ds_type st) st).2.
Proof.
  rewrite run_register.
  destruct (_get_field_details ds_type "type") as [e0|details]; simpl.
  { intros [= _ <-]. by left. }
  destruct (Py.truthy (default_value details)); simpl.
  2: { intros [= _ <-]. by left. }
  destruct (_register_assets ds_type (asset_handle ds_type st) st) as [[e1|h2] st1]; simpl.
  { intros [= _ <-]. by right. }
  destruct (dict_get _ _); simpl.
  { intros [= _ <-]. by right. }
  destruct (TypeLookup.setitem _ _ _); simpl; [|done].
  intros [= _ <-]. by right.
Qed.

(** A registration that goes through: the declared tag is a non-empty
    string, the asset types went through, the derived name was free, the
    datasource entry was staged, and everything is committed. *)
Lemma register_success ds_type factory_fn st u st' :
  register_types_and_ds_factory ds_type factory_fn st = (inr u, st') →
  ∃ tag h1 h2 st1,
    declared_type ds_type = Py.PyStr tag ∧ tag ≠ "" ∧
    _register_assets ds_type (asset_handle ds_type st) st = (inr h2, st1) ∧
    dict_get (source_factories st1) (method_name_of ds_type) = None ∧
    TypeLookup.setitem (ds_handle st) (cls_ref ds_type) tag = inr h1 ∧
    st' = committed_state ds_type factory_fn h1 h2 st1.
Proof.
  rewrite run_register. unfold committed_state, method_name_of, declared_type.
  destruct (_get_field_details ds_type "type") as [e0|details]; simpl; [done|].
  destruct (default_value details) as [|tag] eqn:Hd; simpl; [done|].
  destruct (bool_decide (tag = "")) eqn:Ht; simpl; [done|].
  apply bool_decide_eq_false_1 in Ht.
  destruct (_register_assets ds_type (asset_handle ds_type st) st) as [[e1|h2] st1] eqn:Ha;
    simpl; [done|].
  destruct (dict_get _ _) eqn:Hg; simpl; [done|].
  destruct (TypeLookup.setitem _ _ _) as [e2|h1] eqn:Hs; simpl; [done|].
  intros [= <-]. by exists tag, h1, h2, st1.
Qed.

Lemma type_lookup_set__type_lookup c m st c' :
  _type_lookup (set__type_lookup c m st) c' = if bool_decide (c = c') then m else _type_lookup st c'.
Proof.
  unfold _type_lookup. simpl. case_bool_decide as Hc.
  - subst c'. by rewrite lookup_insert_eq.
  - by rewrite lookup_insert_ne.
Qed.

(** Rolling back restores the tables of the store before the call. *)
Lemma rolled_back_same_tables ds_type st st1 :
  same_tables st st1 → same_tables st (rolled_back_state ds_type st st1).
Proof.
  intros (_ & Hl & Hsf & Hfn). unfold rolled_back_state. repeat split; try done.
  intros c. change (_type_lookup (set_type_lookup ?m ?s) c) with (_type_lookup s c).
  rewrite type_lookup_set__type_lookup. case_bool_decide as Hc; [by subst c | apply Hl].
Qed.

(** A failed registration changes none of the tables. *)
Lemma register_failure_same_tables ds_type factory_fn st e st' :
  register_types_and_ds_factory ds_type factory_fn st = (inl e, st') →
  same_tables st st'.
Proof.
  intros [-> | ->]%register_failure; [apply same_tables_refl|].
  apply rolled_back_same_tables, register_assets_same_tables.
Qed.

(** A registration that goes through appends its factory to the table and
    renames the function object. *)
Lemma register_success_tables ds_type factory_fn st u st' :
  register_types_and_ds_factory ds_type factory_fn st = (inr u, st') →
  dict_get (source_factories st) (method_name_of ds_type) = None ∧
  source_factories st' = source_factories st ++ [(method_name_of ds_type, factory_fn)] ∧
  fn_name st' = <[factory_fn := method_name_of ds_type]> (fn_name st).
Proof.
  intros (tag & h1 & h2 & st1 & Hd & Ht & Ha & Hg & Hs & ->)%register_success.
  pose proof (register_assets_same_tables ds_type (asset_handle ds_type st) st) as Hsame.
  rewrite Ha in Hsame. destruct Hsame as (_ & _ & Hsf & Hfn). simpl in *.
  rewrite Hsf in Hg. rewrite Hsf, Hfn. split; [done|]. split; [|done].
  by apply dict_set_fresh.
Qed.

(** ** The attributes of the datasource class *)

Lemma dict_setattr c n m st c' :
  __dict__ (setattr c n m st) c' =
  if bool_decide (c = c') then <[n := m]> (__dict__ st c) else __dict__ st c'.
Proof.
  unfold __dict__ at 1. simpl. case_bool_decide as Hc.
  - subst c'. by rewrite lookup_insert_eq.
  - by rewrite lookup_insert_ne.
Qed.

Lemma dict_setattr_lookup c n m st c' n' :
  __dict__ (setattr c n m st) c' !! n' =
  if bool_decide (c = c' ∧ n = n') then Some m else __dict__ st c' !! n'.
Proof.
  rewrite dict_setattr. case_bool_decide as Hc.
  - subst c'. destruct (decide (n = n')) as [->|Hn].
    + rewrite lookup_insert_eq. by rewrite bool_decide_eq_true_2.
    + rewrite lookup_insert_ne by done. rewrite bool_decide_eq_false_2; [done | tauto].
  - rewrite bool_decide_eq_false_2; [done | tauto].
Qed.

(** [__dict__] only reads the [class_dict] component. *)
Lemma dict_committed_state ds_type factory_fn h1 h2 st1 c :
  __dict__ (committed_state ds_type factory_fn h1 h2 st1) c = __dict__ st1 c.
Proof. reflexivity. Qed.

(** The attributes after a registration, whatever its outcome, are those of
    the store before or of the store left by [_register_assets]. *)
Lemma register_dict ds_type factory_fn st :
  ∃ st1, (st1 = st ∨ st1 = (_register_assets ds_type (asset_handle ds_type st) st).2) ∧
         ∀ c, __dict__ (register_types_and_ds_factory ds_type factory_fn st).2 c = __dict__ st1 c.
Proof.
  destruct (register_types_and_ds_factory ds_type factory_fn st) as [[e|u] st'] eqn:Hr.
  - apply register_failure in Hr as [-> | ->].
    + exists st. split; [by left | done].
    + eexists. split; [by right | done].
  - apply register_success in Hr as (tag & h1 & h2 & st1 & _ & _ & Ha & _ & _ & ->).
    exists st1. split; [right; by rewrite Ha|]. intros c. apply dict_committed_state.
Qed.

(** A relation on stores that looks at the attributes only, is a preorder
    and holds across [bound] holds across a whole registration. *)
Lemma register_preserves (R : State → State → Prop) ds_type factory_fn st :
  (∀ st1 st2 st2', (∀ c, __dict__ st2' c = __dict__ st2 c) → R st1 st2 → R st1 st2') →
  (∀ st, R st st) →
  (∀ st1 st2 st3, R st1 st2 → R st2 st3 → R st1 st3) →
  (∀ t n st, R st (bound ds_type t n st)) →
  R st (register_types_and_ds_factory ds_type factory_fn st).2.
Proof.
  intros Hdict Hrefl Htrans Hstep.
  destruct (register_dict ds_type factory_fn st) as (st1 & Hst1 & Heq).
  apply (Hdict _ st1); [done|].
  destruct Hst1 as [-> | ->]; [apply Hrefl|].
  unfold _register_assets. by apply register_assets_loop_preserves.
Qed.

Lemma only_generated_refl c0 st : only_generated c0 st st.
Proof. intros c n. split; [by left | done]. Qed.

Lemma only_generated_trans c0 st1 st2 st3 :
  only_generated c0 st1 st2 → only_generated c0 st2 st3 → only_generated c0 st1 st3.
Proof.
  intros H12 H23 c n. destruct (H12 c n) as [H12a H12b], (H23 c n) as [H23a H23b].
  split; [|auto].
  destruct H23a as [->|?]; [done | by right].
Qed.

Lemma only_generated_setattr c0 n0 m st :
  is_generated (Some m) → only_generated c0 st (setattr c0 n0 m st).
Proof.
  intros Hm c n. rewrite dict_setattr_lookup. case_bool_decide as H.
  - destruct H as [-> ->]. split; [by right | by eexists].
  - split; [by left | done].
Qed.

Lemma bound_only_generated (ds_type : DatasourceType) t n st :
  only_generated (cls_ref ds_type) st (bound ds_type t n st).
Proof.
  unfold bound. destruct (_ !! _); [apply only_generated_refl|].
  eapply only_generated_trans; by apply only_generated_setattr.
Qed.

Lemma register_only_generated (ds_type : DatasourceType) factory_fn st :
  only_generated (cls_ref ds_type) st (register_types_and_ds_factory ds_type factory_fn st).2.
Proof.
  apply (register_preserves (only_generated (cls_ref ds_type)));
    eauto using only_generated_refl, only_generated_trans, bound_only_generated.
  intros st1 st2 st2' Heq H c n. rewrite Heq. apply H.
Qed.

Lemma keeps_defined_trans c0 tag st1 st2 st3 :
  keeps_defined c0 tag st1 st2 → keeps_defined c0 tag st2 st3 → keeps_defined c0 tag st1 st3.
Proof.
  intros H12 H23 u Hu. destruct (H12 u Hu) as [Ha Hr]. destruct (H23 u Ha) as [Ha' Hr'].
  split; [done | congruence].
Qed.

Lemma bound_keeps_defined (ds_type : DatasourceType) c0 tag t n st :
  keeps_defined c0 tag st (bound ds_type t n st).
Proof.
  intros u Hu. unfold bound.
  destruct (__dict__ st (cls_ref ds_type) !! _) eqn:Hadd; [done|].
  rewrite !dict_setattr_lookup.
  assert (Hne : ¬ (cls_ref ds_type = c0 ∧ n = tag)).
  { intros [Hc Hn]. subst n. rewrite Hc in Hadd. congruence. }
  rewrite (bool_decide_eq_false_2 (_ ∧ "read_" +:+ n = "add_" +:+ _)) by (intros [_ [=]]).
  rewrite (bool_decide_eq_false_2 (_ ∧ "add_" +:+ n +:+ _ = "read_" +:+ _)) by (intros [_ [=]]).
  rewrite (bool_decide_eq_false_2 (_ ∧ "read_" +:+ n = "read_" +:+ _)).
  2: { intros [? [= ?]]. tauto. }
  split; [|done].
  case_bool_decide as H; [|done].
  destruct H as [Hc H]. rewrite Hc, H in Hadd. congruence.
Qed.

(** ** Errors of a registration *)

(** An exception of the [try] block is of a class the handler names, or it
    is an error of the map. *)
Lemma register_asset_try_error t h e :
  register_asset_try t h = inl e → bad_field_exc e = true ∨ is_duplicate_error e = true.
Proof.
  unfold register_asset_try, _get_field_details.
  destruct (cls_fields t !! "type") as [fi|]; simpl; [|intros [= <-]; by left].
  destruct (field_default fi) as [|n]; [intros [= <-]; by left|].
  unfold TypeLookup.setitem, TypeLookup.check.
  repeat (case_match; simplify_eq/=); intros [= <-]; by right.
Qed.

Lemma register_asset_error ds_type t h st e st' :
  register_asset ds_type t h st = (inl e, st') →
  is_TypeRegistrationError e = true ∨ is_duplicate_error e = true.
Proof.
  unfold register_asset.
  destruct (Py.startswith _ _); [done|].
  destruct (register_asset_try t h) as [e0|[n h']] eqn:Ht.
  - destruct (bad_field_exc e0) eqn:Hb; [intros [= <- _]; by left|].
    intros [= <- _]. destruct (register_asset_try_error _ _ _ Ht); [congruence | by right].
  - run. by rewrite run_bind_asset_factory.
Qed.

(** [_register_assets] raises [TypeRegistrationError] or lets an error of
    the map through. *)
Lemma register_assets_error ds_type h st e st' :
  _register_assets ds_type h st = (inl e, st') →
  is_TypeRegistrationError e = true ∨ is_duplicate_error e = true.
Proof.
  unfold _register_assets. generalize (asset_types ds_type) as ts.
  intros ts. revert h st.
  induction ts as [|t ts IH]; intros h st; simpl; [done|].
  rewrite run_bind.
  destruct (register_asset ds_type t h st) as [[e0|h'] st0] eqn:Hr.
  - intros [= <- _]. by eapply register_asset_error.
  - apply IH.
Qed.

(** A registration whose derived name is taken raises and changes none of
    the tables; it raises [TypeRegistrationError] unless [_register_assets]
    has let an error of the map through. *)
Lemma register_taken (ds_type : DatasourceType) factory_fn tag pre_existing st :
  declared_type ds_type = Py.PyStr tag →
  dict_get (source_factories st) ("add_" +:+ tag) = Some pre_existing →
  ∃ e st', register_types_and_ds_factory ds_type factory_fn st = (inl e, st') ∧
           same_tables st st' ∧
           (is_TypeRegistrationError e = true ∨
            (is_duplicate_error e = true ∧
             ∃ st1, _register_assets ds_type (asset_handle ds_type st) st = (inl e, st1))).
Proof.
  intros Hd Hg.
  destruct (register_types_and_ds_factory ds_type factory_fn st) as [[e|u] st'] eqn:Hr.
  - exists e, st'. split; [done|]. split; [by eapply register_failure_same_tables|].
    revert Hr. rewrite run_register. unfold declared_type in Hd.
    destruct (_get_field_details ds_type "type") as [e0|details]; simpl; [done|].
    simpl in Hd.
    destruct (Py.truthy (default_value details)); simpl; [|intros [= <- _]; by left].
    destruct (_register_assets _ _ st) as [[e1|h2] st1] eqn:Ha; simpl.
    { intros [= <- _]. destruct (register_assets_error _ _ _ _ _ Ha); [by left|].
      right. split; [done | by eexists]. }
    pose proof (register_assets_same_tables ds_type (asset_handle ds_type st) st) as Hsame.
    rewrite Ha in Hsame. destruct Hsame as (_ & _ & Hsf & _).
    simpl in Hsf. rewrite Hsf, Hd. simpl. rewrite Hg. intros [= <- _]. by left.
  - apply register_success_tables in Hr as [Hnone _].
    unfold method_name_of in Hnone. rewrite Hd in Hnone. simpl in Hnone. congruence.
Qed.

Lemma dict_get_app_Some {V : Type} (d d' : list (string * V)) k v :
  dict_get d k = Some v → dict_get (d ++ d') k = Some v.
Proof.
  induction d as [|[k0 v0] d IH]; simpl; [done|].
  destruct (bool_decide (k0 = k)); auto.
Qed.

Lemma dict_get_app_None {V : Type} (d d' : list (string * V)) k :
  dict_get d k = None → dict_get (d ++ d') k = dict_get d' k.
Proof.
  induction d as [|[k0 v0] d IH]; simpl; [done|].
  destruct (bool_decide (k0 = k)); [done | auto].
Qed.

(** No registration call removes or replaces an entry of the factory
    table. *)
Lemma register_keeps_factory ds_type factory_fn st name fn :
  dict_get (source_factories st) name = Some fn →
  dict_get (source_factories (register_types_and_ds_factory ds_type factory_fn st).2) name
  = Some fn.
Proof.
  intros Hg.
  destruct (register_types_and_ds_factory ds_type factory_fn st) as [[e|u] st'] eqn:Hr; simpl.
  - apply register_failure_same_tables in Hr as (_ & _ & -> & _). done.
  - apply register_success_tables in Hr as (_ & -> & _). by apply dict_get_app_Some.
Qed.

Lemma register_all_keeps_factory calls st name fn :
  dict_get (source_factories st) name = Some fn →
  dict_get (source_factories (register_all calls st).2) name = Some fn.
Proof.
  revert st. induction calls as [|[ds_type factory_fn] calls IH]; intros st Hg; simpl; [done|].
  pose proof (register_keeps_factory ds_type factory_fn st name fn Hg) as Hk.
  destruct (register_types_and_ds_factory ds_type factory_fn st) as [[e|u] st']; simpl in *.
  - by apply IH.
  - specialize (IH st' Hk). by destruct (register_all calls st').
Qed.

(** The table after a sequence of calls: the names of the calls that went
    through are appended in order. *)
Lemma register_all_factories calls st :
  dict_keys (source_factories (register_all calls st).2)
  = dict_keys (source_factories st) ++ ((λ c, method_name_of c.1) <$> (register_all calls st).1).
Proof.
  revert st. induction calls as [|[ds_type factory_fn] calls IH]; intros st; simpl.
  { by rewrite app_nil_r. }
  destruct (register_types_and_ds_factory ds_type factory_fn st) as [[e|u] st'] eqn:Hr.
  - rewrite IH. by apply register_failure_same_tables in Hr as (_ & _ & -> & _).
  - specialize (IH st'). destruct (register_all calls st') as [ok st'']. simpl in *.
    rewrite IH. apply register_success_tables in Hr as (_ & -> & _).
    unfold dict_keys. rewrite fmap_app. simpl. by rewrite <- app_assoc.
Qed.

Lemma register_all_registered calls st :
  Forall (λ c : DatasourceType * fn_ref,
            ∃ tag, declared_type c.1 = Py.PyStr tag ∧ tag ≠ "" ∧
                   method_name_of c.1 = "add_" +:+ tag)
         (register_all calls st).1.
Proof.
  revert st. induction calls as [|[ds_type factory_fn] calls IH]; intros st; simpl; [done|].
  destruct (register_types_and_ds_factory ds_type factory_fn st) as [[e|u] st'] eqn:Hr.
  - apply IH.
  - specialize (IH st'). destruct (register_all calls st') as [ok st'']. simpl in *.
    constructor; [|done].
    apply register_success in Hr as (tag & _ & _ & _ & Hd & Ht & _).
    exists tag. unfold method_name_of. simpl. by rewrite Hd.
Qed.

(** ** Strings *)

Lemma append_assoc (s1 s2 s3 : string) : (s1 +:+ s2) +:+ s3 = s1 +:+ s2 +:+ s3.
Proof.
  induction s1 as [|c s1 IH]; [done|].
  change (String c ((s1 +:+ s2) +:+ s3) = String c (s1 +:+ s2 +:+ s3)).
  by rewrite IH.
Qed.

Lemma append_empty_r (s : string) : s +:+ "" = s.
Proof.
  induction s as [|c s IH]; [done|].
  change (String c (s +:+ "") = String c s). by rewrite IH.
Qed.

(** ** The operations the loop binds *)

Lemma length_append (s1 s2 : string) :
  String.length (s1 +:+ s2) = String.length s1 + String.length s2.
Proof.
  induction s1 as [|c s1 IH]; [done|].
  change (S (String.length (s1 +:+ s2)) = S (String.length s1 + String.length s2)).
  by rewrite IH.
Qed.

Lemma append_inj_l (s1 s2 t : string) : s1 +:+ t = s2 +:+ t → s1 = s2.
Proof.
  revert s2. induction s1 as [|c s1 IH]; intros [|c2 s2] H.
  - done.
  - apply (f_equal String.length) in H. rewrite !length_append in H.
    cbn [String.length] in H. lia.
  - apply (f_equal String.length) in H. rewrite !length_append in H.
    cbn [String.length] in H. lia.
  - change (String c (s1 +:+ t) = String c2 (s2 +:+ t)) in H.
    injection H as -> H. f_equal. by apply IH.
Qed.

Lemma add_asset_name_inj (n1 n2 : string) :
  "add_" +:+ n1 +:+ "_asset" = "add_" +:+ n2 +:+ "_asset" → n1 = n2.
Proof. intros H. apply (inj (String.append "add_")) in H. by apply append_inj_l in H. Qed.

Lemma keeps_defined_refl c0 tag st : keeps_defined c0 tag st st.
Proof. by intros u Hu. Qed.

Lemma loop_keeps_defined (ds_type : DatasourceType) tag ts h st :
  keeps_defined (cls_ref ds_type) tag st (register_assets_loop ds_type ts h st).2.
Proof.
  apply (register_assets_loop_preserves (keeps_defined (cls_ref ds_type) tag));
    eauto using keeps_defined_refl, keeps_defined_trans, bound_keeps_defined.
Qed.

(** What [bound] establishes for its own tag. *)
Lemma bound_establishes (ds_type : DatasourceType) t n st :
  is_Some (__dict__ (bound ds_type t n st) (cls_ref ds_type) !! ("add_" +:+ n +:+ "_asset")) ∧
  (__dict__ st (cls_ref ds_type) !! ("add_" +:+ n +:+ "_asset") = None →
   generated_for (cls_ref ds_type) n (bound ds_type t n st)).
Proof.
  unfold bound. destruct (__dict__ st (cls_ref ds_type) !! _) eqn:Hadd.
  - split; [by rewrite Hadd | done].
  - assert (Hlk : __dict__
                    (setattr (cls_ref ds_type) ("read_" +:+ n)
                       (ReadAssetFactory (cls_ref t) "_read_asset_factory")
                       (setattr (cls_ref ds_type) ("add_" +:+ n +:+ "_asset")
                          (AddAssetFactory (cls_ref t) ("add_" +:+ n +:+ "_asset")) st))
                    (cls_ref ds_type) !! ("add_" +:+ n +:+ "_asset")
                  = Some (AddAssetFactory (cls_ref t) ("add_" +:+ n +:+ "_asset"))).
    { rewrite !dict_setattr_lookup.
      rewrite (bool_decide_eq_false_2 (_ ∧ "read_" +:+ n = "add_" +:+ _)) by (intros [_ [=]]).
      by rewrite bool_decide_eq_true_2. }
    split; [by rewrite Hlk|]. intros _. exists (cls_ref t). split; [done|].
    rewrite dict_setattr_lookup. by rewrite bool_decide_eq_true_2.
Qed.

(** The attributes of [c] that [bound] leaves alone. *)
Lemma bound_other_add (ds_type : DatasourceType) t n0 n st :
  n ≠ n0 →
  __dict__ (bound ds_type t n0 st) (cls_ref ds_type) !! ("add_" +:+ n +:+ "_asset")
  = __dict__ st (cls_ref ds_type) !! ("add_" +:+ n +:+ "_asset").
Proof.
  intros Hne. unfold bound. destruct (__dict__ st (cls_ref ds_type) !! _); [done|].
  rewrite !dict_setattr_lookup.
  rewrite (bool_decide_eq_false_2 (_ ∧ "read_" +:+ n0 = "add_" +:+ _)) by (intros [_ [=]]).
  rewrite bool_decide_eq_false_2; [done|].
  intros [_ H%add_asset_name_inj]. congruence.
Qed.

Lemma generated_for_kept c n st st' :
  keeps_defined c n st st' → generated_for c n st → generated_for c n st'.
Proof.
  intros Hk (a & Hadd & Hread). destruct (Hk _ Hadd) as [Hadd' Hread'].
  exists a. split; [done | congruence].
Qed.

Lemma is_Some_add_kept c n st st' :
  keeps_defined c n st st' →
  is_Some (__dict__ st c !! ("add_" +:+ n +:+ "_asset")) →
  is_Some (__dict__ st' c !! ("add_" +:+ n +:+ "_asset")).
Proof. intros Hk [u Hu]. destruct (Hk _ Hu) as [Hadd' _]. by eexists. Qed.

(** A public asset type that went through one iteration has a tag, and the
    store is the one [bound] leaves for that tag. *)
Lemma run_register_asset_public ds_type t h st h' st' :
  is_public t = true → register_asset ds_type t h st = (inr h', st') →
  ∃ n, declared_type t = Py.PyStr n ∧ st' = bound ds_type t n st.
Proof.
  unfold is_public, register_asset. intros Hp%negb_true_iff. rewrite Hp.
  destruct (register_asset_try t h) as [e|[n h0]] eqn:Ht.
  { by destruct (bad_field_exc e). }
  run. rewrite run_bind_asset_factory. intros [= _ <-]. exists n. split; [|done].
  revert Ht. unfold register_asset_try, declared_type.
  destruct (_get_field_details t "type") as [e|details]; [done|]. simpl.
  destruct (default_value details) as [|n']; [done|].
  destruct (TypeLookup.setitem h (cls_ref t) n'); [done|]. by intros [= -> _].
Qed.

Lemma register_asset_keeps_defined (ds_type : DatasourceType) tag t h st :
  keeps_defined (cls_ref ds_type) tag st (register_asset ds_type t h st).2.
Proof.
  destruct (run_register_asset ds_type t h st) as [[r ->]|(n & h' & ->)]; simpl.
  - apply keeps_defined_refl.
  - apply bound_keeps_defined.
Qed.

Lemma loop_asset_operations (ds_type : DatasourceType) ts :
  ∀ h st h' st1,
    register_assets_loop ds_type ts h st = (inr h', st1) →
    ∀ t, t ∈ ts → is_public t = true →
         ∃ n, declared_type t = Py.PyStr n ∧
              is_Some (__dict__ st1 (cls_ref ds_type) !! ("add_" +:+ n +:+ "_asset")) ∧
              (__dict__ st (cls_ref ds_type) !! ("add_" +:+ n +:+ "_asset") = None →
               generated_for (cls_ref ds_type) n st1).
Proof.
  induction ts as [|t0 ts IH]; intros h st h' st1 Hloop t Hin Hp.
  { by apply elem_of_nil in Hin. }
  cbn [register_assets_loop] in Hloop. rewrite run_bind in Hloop.
  destruct (register_asset ds_type t0 h st) as [[e|h0] st0] eqn:Hr; [done|].
  pose proof (loop_keeps_defined ds_type) as Hkeep.
  apply elem_of_cons in Hin as [->|Hin].
  - destruct (run_register_asset_public _ _ _ _ _ _ Hp Hr) as (n & Hd & ->).
    exists n. split; [done|].
    destruct (bound_establishes ds_type t0 n st) as [Hsome Hgen].
    specialize (Hkeep n ts h0 (bound ds_type t0 n st)). rewrite Hloop in Hkeep.
    split; [by eapply is_Some_add_kept | intros Hnone; eapply generated_for_kept; eauto].
  - destruct (IH _ _ _ _ Hloop t Hin Hp) as (n & Hd & Hsome & Hgen).
    exists n. split; [done|]. split; [done|]. intros Hnone.
    destruct (__dict__ st0 (cls_ref ds_type) !! ("add_" +:+ n +:+ "_asset")) eqn:Hadd0;
      [|by apply Hgen].
    destruct (run_register_asset ds_type t0 h st) as [[r Hr']|(n0 & h1 & Hr')];
      rewrite Hr' in Hr; injection Hr as _ <-; [congruence|].
    destruct (decide (n = n0)) as [->|Hne].
    + destruct (bound_establishes ds_type t0 n0 st) as [_ Hgen0].
      specialize (Hkeep n0 ts h0 (bound ds_type t0 n0 st)). rewrite Hloop in Hkeep.
      eapply generated_for_kept; eauto.
    + rewrite bound_other_add in Hadd0 by done. congruence.
Qed.

(** ** The registration protocol *)




(** A loop that fails went through a prefix of the asset types and failed
    on the next one, which left the store as it found it. *)
Lemma loop_failure_split ds_type ts :
  ∀ h st e st1,
    register_assets_loop ds_type ts h st = (inl e, st1) →
    ∃ done t rest h0,
      ts = done ++ t :: rest ∧
      register_assets_loop ds_type done h st = (inr h0, st1) ∧
      register_asset ds_type t h0 st1 = (inl e, st1).
Proof.
  induction ts as [|t0 ts IH]; intros h st e st1 Hloop; [done|].
  cbn [register_assets_loop] in Hloop. rewrite run_bind in Hloop.
  destruct (register_asset ds_type t0 h st) as [[e0|h0] st0] eqn:Hr.
  - injection Hloop as <- <-.
    assert (st0 = st) as ->.
    { destruct (run_register_asset ds_type t0 h st) as [[r Hr']|(n & h' & Hr')];
        rewrite Hr' in Hr; [by injection Hr as _ <- | done]. }
    by exists [], t0, ts, h.
  - destruct (IH _ _ _ _ Hloop) as (done & t & rest & h' & -> & Hdone & Hfail).
    exists (t0 :: done), t, rest, h'. split; [done|]. split; [|done].
    cbn [register_assets_loop]. by rewrite run_bind, Hr.
Qed.

(** A registration that fails has processed a prefix of the asset types,
    and the attributes it leaves are those the loop left after that prefix:
    nothing before the [with] block, everything when the failure comes
    after the loop, and the types before the offending one when the loop
    fails. *)
Lemma register_failure_processed (ds_type : DatasourceType) factory_fn st e st' :
  register_types_and_ds_factory ds_type factory_fn st = (inl e, st') →
  ∃ done rest h st_done,
    asset_types ds_type = done ++ rest ∧
    register_assets_loop ds_type done (asset_handle ds_type st) st = (inr h, st_done) ∧
    class_dict st' = class_dict st_done ∧
    (Py.truthy (declared_type ds_type) = false → done = []) ∧
    (Py.truthy (declared_type ds_type) = true →
     rest = [] ∨
     ∃ t rest', rest = t :: rest' ∧ register_asset ds_type t h st_done = (inl e, st_done)).
Proof.
  rewrite run_register. unfold declared_type.
  destruct (_get_field_details ds_type "type") as [e0|details]; simpl.
  { intros [= _ <-]. by exists [], (asset_types ds_type), (asset_handle ds_type st), st. }
  destruct (Py.truthy (default_value details)) eqn:Ht; simpl.
  2: { intros [= _ <-]. by exists [], (asset_types ds_type), (asset_handle ds_type st), st. }
  destruct (_register_assets ds_type (asset_handle ds_type st) st) as [[e1|h2] st1] eqn:Ha;
    simpl.
  - intros [= <- <-]. unfold _register_assets in Ha.
    destruct (loop_failure_split _ _ _ _ _ _ Ha) as (done & t & rest & h0 & Hts & Hdone & Hfail).
    exists done, (t :: rest), h0, st1. split; [done|]. split; [done|]. split; [done|].
    split; [done|]. intros _. right. by exists t, rest.
  - assert (Hall : ∃ done rest h st_done,
               asset_types ds_type = done ++ rest ∧
               register_assets_loop ds_type done (asset_handle ds_type st) st
                 = (inr h, st_done) ∧
               class_dict (rolled_back_state ds_type st st1) = class_dict st_done ∧
               rest = []).
    { exists (asset_types ds_type), [], h2, st1. by rewrite app_nil_r. }
    destruct Hall as (done & rest & h & st_done & Hts & Hdone & Hcd & Hrest).
    destruct (dict_get _ _); simpl.
    { intros [= _ <-]. exists done, rest, h, st_done. repeat split; try done. by left. }
    destruct (TypeLookup.setitem _ _ _); simpl; [|done].
    intros [= _ <-]. exists done, rest, h, st_done. repeat split; try done. by left.
Qed.

(** C3, as the code has it.  A registration that fails leaves the two
    tag-to-type maps, the factory table and the names of the function
    objects exactly as they were.  The attributes bound on the provider type
    are not rolled back: they are what the loop over the product types left
    when the call failed.  When the provider tag is missing or empty no
    product type has been processed; otherwise the processed types are all
    of them, when the failure comes after the loop, or those before the
    offending one.  For every public product type that was processed,
    [add_<productTag>_asset] is bound on the provider type after the call,
    and when it was not bound before the call both [add_<productTag>_asset]
    and [read_<productTag>] are bound to generated operations.  Every
    attribute name the provider type had is still bound, to what it was
    bound to or to a generated operation, and the attributes of the other
    classes are as they were. *)
Theorem failed_registration_keeps_tables (ds_type : DatasourceType) (factory_fn : fn_ref)
    (st : State) (e : exn) (st' : State) :
  register_types_and_ds_factory ds_type factory_fn st = (inl e, st') →
  same_tables st st' ∧
  only_generated (cls_ref ds_type) st st' ∧
  ∃ done rest h st_done,
    asset_types ds_type = done ++ rest ∧
    register_assets_loop ds_type done (asset_handle ds_type st) st = (inr h, st_done) ∧
    class_dict st' = class_dict st_done ∧
    (Py.truthy (declared_type ds_type) = false → done = []) ∧
    (Py.truthy (declared_type ds_type) = true →
     rest = [] ∨
     ∃ t rest', rest = t :: rest' ∧ register_asset ds_type t h st_done = (inl e, st_done)) ∧
    (∀ t, t ∈ done → is_public t = true →
          ∃ n, declared_type t = Py.PyStr n ∧
               is_Some (__dict__ st' (cls_ref ds_type) !! ("add_" +:+ n +:+ "_asset")) ∧
               (__dict__ st (cls_ref ds_type) !! ("add_" +:+ n +:+ "_asset") = None →
                generated_for (cls_ref ds_type) n st')).
Proof.
  intros Hr. split; [by eapply register_failure_same_tables|].
  split.
  { pose proof (register_only_generated ds_type factory_fn st) as H. by rewrite Hr in H. }
  destruct (register_failure_processed _ _ _ _ _ Hr)
    as (done & rest & h & st_done & Hts & Hdone & Hcd & Hfalsy & Htruthy).
  exists done, rest, h, st_done. do 5 (split; [done|]).
  intros t Hin Hp.
  destruct (loop_asset_operations ds_type _ _ _ _ _ Hdone t Hin Hp) as (n & Hd & Hsome & Hgen).
  assert (Hdict : ∀ c, __dict__ st' c = __dict__ st_done c).
  { intros c. unfold __dict__. by rewrite Hcd. }
  exists n. split; [done|]. split; [by rewrite Hdict|].
  intros Hnone. destruct (Hgen Hnone) as (a & Hadd & Hread).
  exists a. by rewrite !Hdict.
Qed.

Lemma failed_registration_keeps_tables_witness :
  let r := register_types_and_ds_factory Sample.BrokenDatasource Sample.other_factory
             initial_state in
  let e := TypeRegistrationError
             "No `type` field found for `BrokenDatasource.asset_types` -> `UntypedAsset` unable to register asset type"
             (Some (TypeError "UntypedAsset `type` field must be assigned and cannot be `None`")) in
  r = (inl e, r.2) ∧
  same_tables initial_state r.2 ∧
  only_generated (cls_ref Sample.BrokenDatasource) initial_state r.2 ∧
  ∃ done rest h st_done,
    asset_types Sample.BrokenDatasource = done ++ rest ∧
    register_assets_loop Sample.BrokenDatasource done
      (asset_handle Sample.BrokenDatasource initial_state) initial_state = (inr h, st_done) ∧
    class_dict r.2 = class_dict st_done ∧
    (Py.truthy (declared_type Sample.BrokenDatasource) = false → done = []) ∧
    (Py.truthy (declared_type Sample.BrokenDatasource) = true →
     rest = [] ∨
     ∃ t rest', rest = t :: rest' ∧
                register_asset Sample.BrokenDatasource t h st_done = (inl e, st_done)) ∧
    (∀ t, t ∈ done → is_public t = true →
          ∃ n, declared_type t = Py.PyStr n ∧
               is_Some (__dict__ r.2 (cls_ref Sample.BrokenDatasource)
                          !! ("add_" +:+ n +:+ "_asset")) ∧
               (__dict__ initial_state (cls_ref Sample.BrokenDatasource)
                  !! ("add_" +:+ n +:+ "_asset") = None →
                generated_for (cls_ref Sample.BrokenDatasource) n r.2)).
Proof.
  intros r e. split; [reflexivity|].
  eapply (failed_registration_keeps_tables Sample.BrokenDatasource Sample.other_factory).
  vm_compute. reflexivity.
Defined.

(** On the sample the processed product type is [FileAsset], and its two
    operations are bound after the failure. *)
Example failed_registration_binds_processed :
  let st' := (register_types_and_ds_factory Sample.BrokenDatasource Sample.other_factory
                initial_state).2 in
  asset_types Sample.BrokenDatasource = [Sample.FileAsset] ++ [Sample.UntypedAsset] ∧
  __dict__ st' (cls_ref Sample.BrokenDatasource) !! "add_file_asset"
    = Some (AddAssetFactory (cls_ref Sample.FileAsset) "add_file_asset") ∧
  __dict__ st' (cls_ref Sample.BrokenDatasource) !! "read_file"
    = Some (ReadAssetFactory (cls_ref Sample.FileAsset) "_read_asset_factory").
Proof. intros st'. split; [reflexivity|]. split; reflexivity. Qed.

(** C3 fails as stated: registering a provider whose second product type
    has no tag fails with [TypeRegistrationError] before any factory is
    stored, and the provider type has gained [add_file_asset], so the store
    is not the one before the call. *)
Lemma failed_registration_changes_attributes :
  ∃ e st',
    register_types_and_ds_factory Sample.BrokenDatasource Sample.other_factory initial_state
      = (inl e, st') ∧
    is_TypeRegistrationError e = true ∧
    source_factories st' = [] ∧
    __dict__ initial_state (cls_ref Sample.BrokenDatasource) !! "add_file_asset" = None ∧
    __dict__ st' (cls_ref Sample.BrokenDatasource) !! "add_file_asset"
      = Some (AddAssetFactory (cls_ref Sample.FileAsset) "add_file_asset") ∧
    st' ≠ initial_state.
Proof.
  eexists _, _. split; [vm_compute; reflexivity|].
  split; [reflexivity|]. split; [reflexivity|]. split; [reflexivity|].
  split; [reflexivity|].
  intros Heq. apply (f_equal (λ s, __dict__ s 5 !! "add_file_asset")) in Heq.
  vm_compute in Heq. discriminate.
Qed.

(** C4, as the code has it.  A provider type that defines
    [add_<productTag>_asset] itself keeps that very function after a
    registration, whatever its outcome, and nothing is bound to
    [read_<productTag>] either: the presence test of the synthesizer looks
    at the [add_<productTag>_asset] name only. *)
Theorem user_defined_add_asset_kept (ds_type : DatasourceType) (factory_fn : fn_ref)
    (st : State) (tag : string) (user_fn : method) :
  __dict__ st (cls_ref ds_type) !! ("add_" +:+ tag +:+ "_asset") = Some user_fn →
  __dict__ (register_types_and_ds_factory ds_type factory_fn st).2 (cls_ref ds_type)
    !! ("add_" +:+ tag +:+ "_asset") = Some user_fn ∧
  __dict__ (register_types_and_ds_factory ds_type factory_fn st).2 (cls_ref ds_type)
    !! ("read_" +:+ tag) = __dict__ st (cls_ref ds_type) !! ("read_" +:+ tag).
Proof.
  revert user_fn.
  apply (register_preserves (keeps_defined (cls_ref ds_type) tag)).
  - intros st1 st2 st2' Heq H u Hu. rewrite !Heq. by apply H.
  - intros st0 u Hu. done.
  - apply keeps_defined_trans.
  - intros t n st0. apply bound_keeps_defined.
Qed.

Lemma user_defined_add_asset_kept_witness :
  __dict__ Sample.with_user_add (cls_ref Sample.CsvDatasource)
    !! ("add_" +:+ "file" +:+ "_asset") = Some (UserDefined Sample.user_method) ∧
  __dict__ (register_types_and_ds_factory Sample.CsvDatasource Sample.csv_factory
              Sample.with_user_add).2 (cls_ref Sample.CsvDatasource)
    !! ("add_" +:+ "file" +:+ "_asset") = Some (UserDefined Sample.user_method) ∧
  __dict__ (register_types_and_ds_factory Sample.CsvDatasource Sample.csv_factory
              Sample.with_user_add).2 (cls_ref Sample.CsvDatasource)
    !! ("read_" +:+ "file")
  = __dict__ Sample.with_user_add (cls_ref Sample.CsvDatasource) !! ("read_" +:+ "file").
Proof.
  split; [reflexivity|].
  apply (user_defined_add_asset_kept Sample.CsvDatasource Sample.csv_factory
           Sample.with_user_add "file" (UserDefined Sample.user_method)).
  reflexivity.
Defined.

(** C4 fails as stated: a provider type that defines [read_file] itself,
    and no [add_file_asset], has [read_file] rebound to the generated
    operation by a registration that goes through. *)
Lemma user_defined_read_replaced :
  ∃ st',
    register_types_and_ds_factory Sample.CsvDatasource Sample.csv_factory Sample.with_user_read
      = (inr tt, st') ∧
    __dict__ Sample.with_user_read (cls_ref Sample.CsvDatasource) !! "read_file"
      = Some (UserDefined Sample.user_method) ∧
    __dict__ st' (cls_ref Sample.CsvDatasource) !! "read_file"
      = Some (ReadAssetFactory (cls_ref Sample.FileAsset) "_read_asset_factory").
Proof.
  eexists. split; [vm_compute; reflexivity|]. split; reflexivity.
Qed.




(** C9. A registration that goes through sets [__name__] of the function
    object it was handed to the derived name [add_<tag>], and it is that
    object which the table holds under the name: the caller's function is
    renamed. *)
Theorem registration_renames_factory (ds_type : DatasourceType) (factory_fn : fn_ref)
    (st st' : State) :
  register_types_and_ds_factory ds_type factory_fn st = (inr tt, st') →
  ∃ tag, declared_type ds_type = Py.PyStr tag ∧
         fn_name st' !! factory_fn = Some ("add_" +:+ tag) ∧
         dict_get (source_factories st') ("add_" +:+ tag) = Some factory_fn.
Proof.
  intros Hr.
  pose proof (register_success _ _ _ _ _ Hr) as (tag & _ & _ & _ & Hd & _).
  apply register_success_tables in Hr as (Hnone & -> & ->).
  exists tag. split; [done|]. unfold method_name_of in *. rewrite Hd in *. simpl in *.
  split; [apply lookup_insert_eq|].
  rewrite dict_get_app_None by done. simpl. by rewrite bool_decide_eq_true_2.
Qed.

Lemma registration_renames_factory_witness :
  register_types_and_ds_factory Sample.CsvDatasource Sample.csv_factory
    (set_fn_name Sample.csv_factory "_datasource_factory" initial_state)
  = (inr tt, (register_types_and_ds_factory Sample.CsvDatasource Sample.csv_factory
                (set_fn_name Sample.csv_factory "_datasource_factory" initial_state)).2) ∧
  ∃ tag, declared_type Sample.CsvDatasource = Py.PyStr tag ∧
         fn_name (register_types_and_ds_factory Sample.CsvDatasource Sample.csv_factory
                    (set_fn_name Sample.csv_factory "_datasource_factory" initial_state)).2
           !! Sample.csv_factory = Some ("add_" +:+ tag) ∧
         dict_get (source_factories
                     (register_types_and_ds_factory Sample.CsvDatasource Sample.csv_factory
                        (set_fn_name Sample.csv_factory "_datasource_factory" initial_state)).2)
           ("add_" +:+ tag) = Some Sample.csv_factory.
Proof.
  split; [reflexivity|].
  apply (registration_renames_factory Sample.CsvDatasource Sample.csv_factory
           (set_fn_name Sample.csv_factory "_datasource_factory" initial_state)).
  reflexivity.
Defined.

(** C8. Discovery completeness.  After any sequence of registration calls
    on the empty registry, [factories] is exactly the list of the derived
    names [add_<tag>] of the providers whose registration went through, in
    the order of their registration (when all calls go through, of all of
    them), and [__dir__] consists of those names followed by the built-in
    members of the facade. *)
Theorem factories_in_registration_order (calls : list (DatasourceType * fn_ref))
    (super_dir : list string) :
  factories (register_all calls initial_state).2
    = (λ c, method_name_of c.1) <$> (register_all calls initial_state).1 ∧
  Forall (λ c : DatasourceType * fn_ref,
            ∃ tag, declared_type c.1 = Py.PyStr tag ∧ tag ≠ "" ∧
                   method_name_of c.1 = "add_" +:+ tag)
         (register_all calls initial_state).1 ∧
  __dir__ super_dir (register_all calls initial_state).2
    = factories (register_all calls initial_state).2 ++ super_dir ∧
  (∀ name, name ∈ factories (register_all calls initial_state).2 ∨ name ∈ super_dir →
           name ∈ __dir__ super_dir (register_all calls initial_state).2).
Proof.
  split; [|split; [|split]].
  - unfold factories. by rewrite register_all_factories.
  - apply register_all_registered.
  - done.
  - intros name. unfold __dir__. rewrite elem_of_app. tauto.
Qed.

(** ** The facade *)

Lemma occurs_in_refl s : Repr.occurs_in s s.
Proof. exists "", "". by rewrite append_empty_r. Qed.

Lemma occurs_in_append s t pre post :
  Repr.occurs_in s t → Repr.occurs_in s (pre +:+ t +:+ post).
Proof.
  intros (p & q & ->). exists (pre +:+ p), (q +:+ post).
  by rewrite !append_assoc.
Qed.

Lemma join_cons sep x y (l : list string) :
  Repr.join sep (x :: y :: l) = x +:+ sep +:+ Repr.join sep (y :: l).
Proof. reflexivity. Qed.

Lemma occurs_in_join sep (l : list string) s :
  s ∈ l → Repr.occurs_in s (Repr.join sep l).
Proof.
  induction l as [|x l IH]; [by intros ?%elem_of_nil|].
  intros [->|Hin]%elem_of_cons.
  - destruct l as [|y l]; [apply occurs_in_refl|].
    rewrite join_cons. apply (occurs_in_append x x ""), occurs_in_refl.
  - destruct l as [|y l]; [by apply elem_of_nil in Hin|].
    rewrite join_cons, <- (append_empty_r (Repr.join sep (y :: l))), <- append_assoc.
    by apply occurs_in_append, IH.
Qed.

Lemma plain_char_spec (c : ascii) :
  plain_char c = true →
  Repr.printable c = true ∧ bool_decide (c = Repr.squote) = false ∧
  bool_decide (c = Repr.backslash) = false.
Proof.
  unfold plain_char. intros H.
  apply andb_prop in H as [H Hb]. apply andb_prop in H as [H _].
  apply andb_prop in H as [Hp Hs].
  apply negb_true_iff in Hb, Hs. done.
Qed.

Lemma escape_plain (c : ascii) :
  plain_char c = true → Repr.escape Repr.squote c = String c "".
Proof.
  intros (Hp & Hs & Hb)%plain_char_spec. unfold Repr.escape.
  rewrite Hs, Hb. cbn [orb].
  destruct (bool_decide (c = "009"%char)) eqn:H1;
    [apply bool_decide_eq_true in H1; subst c; by vm_compute in Hp|].
  destruct (bool_decide (c = "010"%char)) eqn:H2;
    [apply bool_decide_eq_true in H2; subst c; by vm_compute in Hp|].
  destruct (bool_decide (c = "013"%char)) eqn:H3;
    [apply bool_decide_eq_true in H3; subst c; by vm_compute in Hp|].
  by rewrite Hp.
Qed.

(** [repr] of a plain name is the name between single quotes. *)
Lemma repr_str_plain (s : string) :
  plain_name s = true → Repr.repr_str s = String Repr.squote s +:+ String Repr.squote "".
Proof.
  intros Hs. unfold Repr.repr_str.
  assert (Hc : Repr.contains Repr.squote s = false ∧ Repr.escape_all Repr.squote s = s).
  { induction s as [|c s IH]; [done|]. simpl in Hs.
    apply andb_prop in Hs as [Hc Hs]. destruct (IH Hs) as [IH1 IH2].
    split.
    - simpl. rewrite IH1.
      apply plain_char_spec in Hc as (_ & Hq & _). by rewrite Hq.
    - cbn [Repr.escape_all]. by rewrite escape_plain, IH2. }
  destruct Hc as [Hc1 Hc2]. rewrite Hc1. cbn [andb]. by rewrite Hc2.
Qed.

Section FacadeFacts.

Context {W obj Kwargs : Type}.
Context (call_factory : fn_ref → string → Kwargs → SE W obj).
Context (set_data_context : obj → obj → SE W unit).
Context (_attach_datasource_to_context : obj → obj → SE W unit).
Context (logger_debug : string → W → W).
Context (str_of : obj → W → string).
Context (has_signature : fn_ref → bool).

Local Abbreviation getattr :=
  (__getattr__ call_factory set_data_context _attach_datasource_to_context
     logger_debug str_of has_signature).

Local Abbreviation the_wrapped :=
  (wrapped call_factory set_data_context _attach_datasource_to_context
     logger_debug str_of).

Lemma getattr_absent st self attr_name :
  dict_get (source_factories st) attr_name = None →
  getattr st self attr_name
  = inl (AttributeError
           ("No factory " +:+ attr_name +:+ " in " +:+ Repr.repr_list (factories st))).
Proof. intros H. unfold __getattr__, dict_getitem. by rewrite H. Qed.

Lemma getattr_present st self attr_name ds_constructor :
  dict_get (source_factories st) attr_name = Some ds_constructor →
  has_signature ds_constructor = true →
  getattr st self attr_name = inr (the_wrapped self ds_constructor).
Proof.
  intros H Hsig. unfold __getattr__, dict_getitem, read_signature. by rewrite H, Hsig.
Qed.

(** A registered function without a [__signature__] does not resolve. *)
Lemma getattr_unsigned st self attr_name ds_constructor :
  dict_get (source_factories st) attr_name = Some ds_constructor →
  has_signature ds_constructor = false →
  getattr st self attr_name
  = inl (AttributeError "'function' object has no attribute '__signature__'").
Proof.
  intros H Hsig. unfold __getattr__, dict_getitem, read_signature. by rewrite H, Hsig.
Qed.

(** What resolves is the wrapper of a stored function that has a
    [__signature__]. *)
Lemma getattr_resolved st self attr_name resolved :
  getattr st self attr_name = inr resolved →
  ∃ ds_constructor,
    dict_get (source_factories st) attr_name = Some ds_constructor ∧
    has_signature ds_constructor = true ∧
    resolved = the_wrapped self ds_constructor.
Proof.
  unfold __getattr__, dict_getitem, read_signature.
  destruct (dict_get (source_factories st) attr_name) as [f|]; [|done].
  destruct (has_signature f) eqn:Hsig; [|done].
  intros [= <-]. by exists f.
Qed.

(** Resolution reads the factory table only. *)
Lemma getattr_same_table st st' self attr_name :
  source_factories st' = source_factories st →
  getattr st' self attr_name = getattr st self attr_name.
Proof. intros H. unfold __getattr__, factories. by rewrite H. Qed.

(** C1, as the code has it.  When a registration fails, the provider map
    and the product map of the provider are what they were before the
    call, so nothing staged during the call remains, and so is the factory
    table.  Resolving a name on the facade therefore gives after the call
    what it gave before: a name that was not in the table fails with the
    [AttributeError] that lists the table, and a name that was in it, as
    the derived name is after a collision, resolves as it did. *)
Theorem failed_registration_restores_maps (ds_type : DatasourceType) (factory_fn : fn_ref)
    (st : State) (e : exn) (st' : State) (self : obj) :
  register_types_and_ds_factory ds_type factory_fn st = (inl e, st') →
  type_lookup st' = type_lookup st ∧
  _type_lookup st' (cls_ref ds_type) = _type_lookup st (cls_ref ds_type) ∧
  source_factories st' = source_factories st ∧
  (∀ attr_name, getattr st' self attr_name = getattr st self attr_name) ∧
  (∀ attr_name,
      dict_get (source_factories st) attr_name = None →
      getattr st' self attr_name
      = inl (AttributeError
               ("No factory " +:+ attr_name +:+ " in "
                  +:+ Repr.repr_list (source_factories st).*1))).
Proof.
  intros (Htl & Htls & Hsf & _)%register_failure_same_tables.
  split; [done|]. split; [apply Htls|]. split; [done|].
  split; [intros attr_name; by apply getattr_same_table|].
  intros attr_name H. rewrite (getattr_same_table st st') by done.
  by apply getattr_absent.
Qed.

(** C7. Resolving a name that is not in the factory table fails with
    [AttributeError]; the message is [No factory <name> in <list>], where
    the list is the [repr] of the list of the keys of the table, so the
    [repr] of every key of the table occurs in the message, and for a key
    made of plain characters that is the key between single quotes. *)
Theorem unknown_factory_AttributeError (st : State) (self : obj) (attr_name : string) :
  dict_get (source_factories st) attr_name = None →
  ∃ msg,
    getattr st self attr_name = inl (AttributeError msg) ∧
    msg = "No factory " +:+ attr_name +:+ " in "
            +:+ Repr.repr_list (source_factories st).*1 ∧
    (∀ name, name ∈ (source_factories st).*1 →
             Repr.occurs_in (Repr.repr_str name) msg) ∧
    (∀ name, name ∈ (source_factories st).*1 →
             plain_name name = true →
             Repr.occurs_in (String Repr.squote name +:+ String Repr.squote "") msg).
Proof.
  intros H. eexists. split; [by apply getattr_absent|]. split; [done|].
  assert (Hocc : ∀ name, name ∈ (source_factories st).*1 →
                   Repr.occurs_in (Repr.repr_str name)
                     ("No factory " +:+ attr_name +:+ " in "
                        +:+ Repr.repr_list (factories st))).
  { intros name Hin.
    apply (list_elem_of_fmap_2 Repr.repr_str) in Hin.
    apply (occurs_in_join ", ") in Hin as (p & q & Hj).
    exists ("No factory " +:+ attr_name +:+ " in " +:+ "[" +:+ p), (q +:+ "]").
    unfold Repr.repr_list, factories, dict_keys. rewrite Hj. by rewrite !append_assoc. }
  split; [done|].
  intros name Hin Hplain. rewrite <- (repr_str_plain name Hplain). by apply Hocc.
Qed.

(** When the attribute assignment goes through, [wrapped] attaches the
    datasource and returns it. *)
Lemma wrapped_context_set self ds_constructor name kwargs w datasource w1 w2 :
  call_factory ds_constructor name kwargs w = (inr datasource, w1) →
  set_data_context datasource self w1 = (inr tt, w2) →
  the_wrapped self ds_constructor name kwargs w
  = match _attach_datasource_to_context self datasource w2 with
    | (inl e, w3) => (inl e, w3)
    | (inr _, w3) => (inr datasource, w3)
    end.
Proof.
  intros Hc Hs. unfold wrapped. run. rewrite Hc. run. rewrite Hs. run.
  by destruct (_attach_datasource_to_context self datasource w2) as [[?|?] ?].
Qed.

(** A [ValueError] raised by the assignment is logged and the wrapper goes
    on. *)
Lemma wrapped_swallows self ds_constructor name kwargs w datasource w1 e w2 :
  call_factory ds_constructor name kwargs w = (inr datasource, w1) →
  set_data_context datasource self w1 = (inl e, w2) →
  is_ValueError e = true →
  the_wrapped self ds_constructor name kwargs w
  = match _attach_datasource_to_context self datasource
            (logger_debug (attach_failure_message name (str_of datasource w2)) w2) with
    | (inl e', w3) => (inl e', w3)
    | (inr _, w3) => (inr datasource, w3)
    end.
Proof.
  intros Hc Hs He. unfold wrapped. run. rewrite Hc. run. rewrite Hs. run. rewrite He. run.
  by destruct (_attach_datasource_to_context self datasource _) as [[?|?] ?].
Qed.

(** An exception of another class raised by the assignment leaves the
    wrapper, and the datasource is not attached. *)
Lemma wrapped_propagates self ds_constructor name kwargs w datasource w1 e w2 :
  call_factory ds_constructor name kwargs w = (inr datasource, w1) →
  set_data_context datasource self w1 = (inl e, w2) →
  is_ValueError e = false →
  the_wrapped self ds_constructor name kwargs w = (inl e, w2).
Proof.
  intros Hc Hs He. unfold wrapped. run. rewrite Hc. run. rewrite Hs. run. by rewrite He.
Qed.

(** C6, as the code has it.  What a name resolves to on the facade is the
    wrapper of the factory stored under the name.  When that factory has
    built the instance and the assignment of the context reference raises a
    [ValueError], the wrapper does not let it through: it logs the failure,
    calls [_attach_datasource_to_context] with the instance and, unless
    that call raises, returns the instance.  The handler names [ValueError]
    only: an exception of another class raised by the assignment leaves the
    wrapper, and the instance is not attached. *)
Theorem wrapped_swallows_ValueError (st : State) (self : obj) (attr_name : string)
    (resolved : string → Kwargs → SE W obj) :
  getattr st self attr_name = inr resolved →
  ∃ ds_constructor,
    dict_get (source_factories st) attr_name = Some ds_constructor ∧
    ∀ name kwargs w datasource w1 e w2,
      call_factory ds_constructor name kwargs w = (inr datasource, w1) →
      set_data_context datasource self w1 = (inl e, w2) →
      (is_ValueError e = true →
       resolved name kwargs w
       = match _attach_datasource_to_context self datasource
                 (logger_debug (attach_failure_message name (str_of datasource w2)) w2) with
         | (inl e', w3) => (inl e', w3)
         | (inr _, w3) => (inr datasource, w3)
         end) ∧
      (is_ValueError e = false → resolved name kwargs w = (inl e, w2)).
Proof.
  intros (f & Hg & _ & ->)%getattr_resolved. exists f. split; [done|].
  intros name kwargs w datasource w1 e w2 Hc Hs. split; intros He.
  - by apply (wrapped_swallows _ _ _ _ _ _ w1 e).
  - by apply (wrapped_propagates _ _ _ _ _ datasource w1).
Qed.

End FacadeFacts.

Section GeneratedOperations.

Context {W obj Kwargs : Type}.
Context (construct : type_ref → string → Kwargs → SE W obj).
Context (add_asset : obj → obj → SE W obj).
Context (build_batch_request : obj → SE W obj).
Context (data_context_of : obj → SE W obj).
Context (get_validator : obj → obj → SE W obj).

Lemma falsy_values (v : Py.value) :
  Py.truthy v = false ↔ v = Py.PyNone ∨ v = Py.PyStr "".
Proof.
  destruct v as [|s]; simpl.
  - split; [by left | done].
  - rewrite negb_false_iff, bool_decide_eq_true. split; [intros ->; by right|].
    by intros [?|[= ->]].
Qed.

(** C10. In [read_<productTag>] a falsy asset name, that is the empty
    string, [None] or an omitted argument, is replaced by the constant
    [#ephemeral_pandas_asset]: the product type is constructed with that
    name, and the operation goes on with the instance so constructed. *)
Theorem read_asset_default_name (asset_type : type_ref) (self : obj)
    (asset_name : Py.value) (kwargs : Kwargs) (w : W) :
  asset_name = Py.PyNone ∨ asset_name = Py.PyStr "" →
  DEFAULT_PANDAS_DATA_ASSET_NAME = "#ephemeral_pandas_asset" ∧
  _read_asset_factory construct add_asset build_batch_request data_context_of get_validator
    asset_type self asset_name kwargs w
  = match construct asset_type "#ephemeral_pandas_asset" kwargs w with
    | (inl e, w') => (inl e, w')
    | (inr asset, w') =>
        read_constructed_asset add_asset build_batch_request data_context_of get_validator
          self asset w'
    end.
Proof.
  intros Hfalsy%falsy_values. split; [done|].
  unfold _read_asset_factory, asset_name_or_default. by rewrite Hfalsy.
Qed.

(** A truthy name is passed on as it is. *)
Lemma read_asset_given_name asset_type self name kwargs w :
  name ≠ "" →
  _read_asset_factory construct add_asset build_batch_request data_context_of get_validator
    asset_type self (Py.PyStr name) kwargs w
  = match construct asset_type name kwargs w with
    | (inl e, w') => (inl e, w')
    | (inr asset, w') =>
        read_constructed_asset add_asset build_batch_request data_context_of get_validator
          self asset w'
    end.
Proof.
  intros Hne. unfold _read_asset_factory, asset_name_or_default. simpl.
  by rewrite bool_decide_eq_false_2.
Qed.

End GeneratedOperations.

(** ** The properties on the sample classes *)

Lemma failed_registration_restores_maps_witness :
  let r := register_types_and_ds_factory Sample.BrokenDatasource Sample.other_factory
             Sample.csv_registered in
  r = (inl (TypeRegistrationError
              "No `type` field found for `BrokenDatasource.asset_types` -> `UntypedAsset` unable to register asset type"
              (Some (TypeError "UntypedAsset `type` field must be assigned and cannot be `None`"))),
       r.2) ∧
  type_lookup r.2 = type_lookup Sample.csv_registered ∧
  _type_lookup r.2 (cls_ref Sample.BrokenDatasource)
    = _type_lookup Sample.csv_registered (cls_ref Sample.BrokenDatasource) ∧
  source_factories r.2 = source_factories Sample.csv_registered ∧
  (∀ attr_name,
      __getattr__ Sample.call_factory (Sample.set_data_context None)
        Sample._attach_datasource_to_context Sample.logger_debug Sample.str_of
        Sample.has_signature r.2 0 attr_name
      = __getattr__ Sample.call_factory (Sample.set_data_context None)
          Sample._attach_datasource_to_context Sample.logger_debug Sample.str_of
          Sample.has_signature Sample.csv_registered 0 attr_name) ∧
  (∀ attr_name,
      dict_get (source_factories Sample.csv_registered) attr_name = None →
      __getattr__ Sample.call_factory (Sample.set_data_context None)
        Sample._attach_datasource_to_context Sample.logger_debug Sample.str_of
        Sample.has_signature r.2 0 attr_name
      = inl (AttributeError
               ("No factory " +:+ attr_name +:+ " in "
                  +:+ Repr.repr_list (source_factories Sample.csv_registered).*1))).
Proof.
  split; [reflexivity|].
  eapply (failed_registration_restores_maps Sample.call_factory (Sample.set_data_context None)
            Sample._attach_datasource_to_context Sample.logger_debug Sample.str_of
            Sample.has_signature
            Sample.BrokenDatasource Sample.other_factory Sample.csv_registered).
  vm_compute. reflexivity.
Defined.

(** C1 fails as stated: registering a second provider that declares the tag
    [csv] fails on the collision of the derived name, and afterwards the
    provider map has the tag [csv] and [add_csv] resolves on the facade. *)
Lemma collision_keeps_name_resolvable :
  ∃ e st' resolved,
    register_types_and_ds_factory Sample.OtherCsvDatasource Sample.other_factory
      Sample.csv_registered = (inl e, st') ∧
    is_TypeRegistrationError e = true ∧
    declared_type Sample.OtherCsvDatasource = Py.PyStr "csv" ∧
    "csv" ∈ TypeLookup.names (type_lookup st') ∧
    __getattr__ Sample.call_factory (Sample.set_data_context None)
      Sample._attach_datasource_to_context Sample.logger_debug Sample.str_of
      Sample.has_signature st' 0 "add_csv" = inr resolved.
Proof.
  eexists _, _, _. split; [vm_compute; reflexivity|].
  split; [reflexivity|]. split; [reflexivity|].
  split; [apply list_elem_of_here|]. reflexivity.
Qed.

Lemma wrapped_swallows_ValueError_witness :
  __getattr__ Sample.call_factory
    (Sample.set_data_context (Some (ValueError "object has no field _data_context")))
    Sample._attach_datasource_to_context Sample.logger_debug Sample.str_of
    Sample.has_signature Sample.csv_registered 0 "add_csv"
  = inr (wrapped Sample.call_factory
           (Sample.set_data_context (Some (ValueError "object has no field _data_context")))
           Sample._attach_datasource_to_context Sample.logger_debug Sample.str_of
           0 Sample.csv_factory) ∧
  Sample.call_factory Sample.csv_factory "my_csv" tt Sample.empty_world
    = (inr Sample.csv_factory, Sample.empty_world) ∧
  Sample.set_data_context (Some (ValueError "object has no field _data_context"))
    Sample.csv_factory 0 Sample.empty_world
    = (inl (ValueError "object has no field _data_context"), Sample.empty_world) ∧
  is_ValueError (ValueError "object has no field _data_context") = true ∧
  wrapped Sample.call_factory
    (Sample.set_data_context (Some (ValueError "object has no field _data_context")))
    Sample._attach_datasource_to_context Sample.logger_debug Sample.str_of
    0 Sample.csv_factory "my_csv" tt Sample.empty_world
  = match Sample._attach_datasource_to_context 0 Sample.csv_factory
            (Sample.logger_debug
               (attach_failure_message "my_csv"
                  (Sample.str_of Sample.csv_factory Sample.empty_world))
               Sample.empty_world) with
    | (inl e, w3) => (inl e, w3)
    | (inr _, w3) => (inr Sample.csv_factory, w3)
    end.
Proof.
  split; [reflexivity|]. split; [reflexivity|]. split; [reflexivity|].
  split; [reflexivity|].
  destruct (wrapped_swallows_ValueError Sample.call_factory
              (Sample.set_data_context (Some (ValueError "object has no field _data_context")))
              Sample._attach_datasource_to_context Sample.logger_debug Sample.str_of
              Sample.has_signature Sample.csv_registered 0 "add_csv" _ eq_refl)
    as (ds_constructor & Hget & Hall).
  injection Hget as <-.
  apply (Hall "my_csv" tt Sample.empty_world Sample.csv_factory Sample.empty_world
           (ValueError "object has no field _data_context") Sample.empty_world);
    reflexivity.
Defined.

(** C6 fails as stated: when the assignment of the context reference raises
    an [AttributeError], as it does on an object without such a slot, the
    exception leaves the wrapper; nothing is logged and the instance is not
    attached. *)
Lemma wrapped_propagates_AttributeError :
  ∃ resolved,
    __getattr__ Sample.call_factory
      (Sample.set_data_context (Some (AttributeError "object has no attribute '_data_context'")))
      Sample._attach_datasource_to_context Sample.logger_debug Sample.str_of
      Sample.has_signature Sample.csv_registered 0 "add_csv" = inr resolved ∧
    resolved "my_csv" tt Sample.empty_world
    = (inl (AttributeError "object has no attribute '_data_context'"), Sample.empty_world).
Proof. eexists. split; reflexivity. Qed.

Lemma unknown_factory_AttributeError_witness :
  dict_get (source_factories Sample.csv_registered) "add_sql" = None ∧
  ∃ msg,
    __getattr__ Sample.call_factory (Sample.set_data_context None)
      Sample._attach_datasource_to_context Sample.logger_debug Sample.str_of
      Sample.has_signature Sample.csv_registered 0 "add_sql" = inl (AttributeError msg) ∧
    msg = "No factory " +:+ "add_sql" +:+ " in "
            +:+ Repr.repr_list (source_factories Sample.csv_registered).*1 ∧
    (∀ name, name ∈ (source_factories Sample.csv_registered).*1 →
             Repr.occurs_in (Repr.repr_str name) msg) ∧
    (∀ name, name ∈ (source_factories Sample.csv_registered).*1 →
             plain_name name = true →
             Repr.occurs_in (String Repr.squote name +:+ String Repr.squote "") msg).
Proof.
  split; [reflexivity|].
  apply (unknown_factory_AttributeError Sample.call_factory (Sample.set_data_context None)
           Sample._attach_datasource_to_context Sample.logger_debug Sample.str_of
           Sample.has_signature Sample.csv_registered 0 "add_sql").
  reflexivity.
Defined.

(** The message of the sample lookup, as Python prints it. *)
Example unknown_factory_message :
  __getattr__ Sample.call_factory (Sample.set_data_context None)
    Sample._attach_datasource_to_context Sample.logger_debug Sample.str_of
    Sample.has_signature Sample.csv_registered 0 "add_sql"
  = inl (AttributeError "No factory add_sql in ['add_csv']").
Proof. reflexivity. Qed.

Lemma read_asset_default_name_witness :
  (Py.PyStr "" = Py.PyNone ∨ Py.PyStr "" = Py.PyStr "") ∧
  DEFAULT_PANDAS_DATA_ASSET_NAME = "#ephemeral_pandas_asset" ∧
  _read_asset_factory Sample.construct Sample.add_asset Sample.build_batch_request
    Sample.data_context_of Sample.get_validator
    (cls_ref Sample.FileAsset) 1 (Py.PyStr "") tt Sample.empty_world
  = match Sample.construct (cls_ref Sample.FileAsset) "#ephemeral_pandas_asset" tt
            Sample.empty_world with
    | (inl e, w') => (inl e, w')
    | (inr asset, w') =>
        read_constructed_asset Sample.add_asset Sample.build_batch_request
          Sample.data_context_of Sample.get_validator 1 asset w'
    end.
Proof.
  split; [by right|].
  apply (read_asset_default_name Sample.construct Sample.add_asset Sample.build_batch_request
           Sample.data_context_of Sample.get_validator
           (cls_ref Sample.FileAsset) 1 (Py.PyStr "") tt Sample.empty_world).
  by right.
Defined.

(** * Further properties of the module *)

(** ** The asset types of a datasource class *)

Lemma run_register_asset_private ds_type t h st :
  is_public t = false → register_asset ds_type t h st = (inr h, st).
Proof.
  unfold is_public, register_asset. intros Hp%negb_false_iff. by rewrite Hp.
Qed.

(** The loop runs as on the public asset types alone. *)
Lemma register_assets_public_only (ds_type : DatasourceType) (h : TypeLookup.handle)
    (st : State) :
  _register_assets ds_type h st
  = register_assets_loop ds_type (List.filter is_public (asset_types ds_type)) h st.
Proof.
  unfold _register_assets. generalize (asset_types ds_type) as ts. intros ts. revert h st.
  induction ts as [|t ts IH]; intros h st; [done|].
  cbn [List.filter register_assets_loop]. destruct (is_public t) eqn:Hp.
  - cbn [register_assets_loop]. rewrite !run_bind.
    destruct (register_asset ds_type t h st) as [[e|h'] st']; [done | apply IH].
  - rewrite run_bind, run_register_asset_private by done. apply IH.
Qed.

(** X1. Asset types whose class name starts with an underscore are skipped:
    [_register_assets] runs as if the class declared its public asset types
    only, and for a class with private asset types only it returns with the
    handle and the store untouched. *)
Theorem private_asset_types_skipped (ds_type : DatasourceType) (h : TypeLookup.handle)
    (st : State) :
  _register_assets ds_type h st
  = register_assets_loop ds_type (List.filter is_public (asset_types ds_type)) h st ∧
  (Forall (λ t, Py.startswith (cls_name t) "_" = true) (asset_types ds_type) →
   _register_assets ds_type h st = (inr h, st)).
Proof.
  split; [apply register_assets_public_only|].
  intros Hall. rewrite register_assets_public_only.
  replace (List.filter is_public (asset_types ds_type)) with (@nil PyClass); [done|].
  induction Hall as [|t ts Ht _ IH]; [done|].
  cbn [List.filter]. unfold is_public at 1. by rewrite Ht.
Qed.

Lemma run_register_asset_bad_field ds_type t h st e :
  is_public t = true → register_asset_try t h = inl e → bad_field_exc e = true →
  register_asset ds_type t h st
  = (inl (TypeRegistrationError (asset_error_message ds_type t) (Some e)), st).
Proof.
  unfold is_public, register_asset. intros Hp%negb_true_iff Ht Hb. by rewrite Hp, Ht, Hb.
Qed.

(** X2. When the first public asset type of a datasource class declares its
    [type] field without a value, [_register_assets] raises a
    [TypeRegistrationError] that names the datasource class and the asset
    class and is chained from the [TypeError] about the [None] value; the
    store is as it was. *)
Theorem untagged_asset_type_rejected (ds_type : DatasourceType) (t : PyClass)
    (rest : list PyClass) (field : FieldInfo) (h : TypeLookup.handle) (st : State) :
  List.filter is_public (asset_types ds_type) = t :: rest →
  cls_fields t !! "type" = Some field →
  field_default field = Py.PyNone →
  _register_assets ds_type h st
  = (inl (TypeRegistrationError
            ("No `type` field found for `" +:+ cls_name ds_type +:+ ".asset_types` -> `"
               +:+ cls_name t +:+ "` unable to register asset type")
            (Some (TypeError
                     (cls_name t +:+ " `type` field must be assigned and cannot be `None`")))),
     st).
Proof.
  intros Hf Hfield Hnone. rewrite register_assets_public_only, Hf.
  cbn [register_assets_loop]. rewrite run_bind.
  assert (Hp : is_public t = true).
  { assert (Hin : In t (List.filter is_public (asset_types ds_type))) by (rewrite Hf; by left).
    by apply List.filter_In in Hin as [_ ?]. }
  rewrite (run_register_asset_bad_field ds_type t h st
             (TypeError (cls_name t +:+ " `type` field must be assigned and cannot be `None`")));
    [done | done | | done].
  unfold register_asset_try, _get_field_details. rewrite Hfield. simpl. by rewrite Hnone.
Qed.

Lemma untagged_asset_type_rejected_witness :
  List.filter is_public (asset_types MoreSamples.UntypedFirstDatasource)
    = Sample.UntypedAsset :: [Sample.FileAsset] ∧
  cls_fields Sample.UntypedAsset !! "type"
    = Some {| field_default := Py.PyNone; field_type_ := "str" |} ∧
  Py.PyNone = Py.PyNone ∧
  _register_assets MoreSamples.UntypedFirstDatasource
    (asset_handle MoreSamples.UntypedFirstDatasource Sample.csv_registered)
    Sample.csv_registered
  = (inl (TypeRegistrationError
            ("No `type` field found for `" +:+ cls_name MoreSamples.UntypedFirstDatasource
               +:+ ".asset_types` -> `" +:+ cls_name Sample.UntypedAsset
               +:+ "` unable to register asset type")
            (Some (TypeError
                     (cls_name Sample.UntypedAsset
                        +:+ " `type` field must be assigned and cannot be `None`")))),
     Sample.csv_registered).
Proof.
  split; [reflexivity|]. split; [reflexivity|]. split; [reflexivity|].
  apply (untagged_asset_type_rejected MoreSamples.UntypedFirstDatasource Sample.UntypedAsset
           [Sample.FileAsset] {| field_default := Py.PyNone; field_type_ := "str" |});
    reflexivity.
Defined.

(** X3. When the first public asset type of a datasource class has no
    [type] field at all, the [KeyError] of the field lookup is turned into a
    [TypeRegistrationError] naming both classes, chained from that
    [KeyError]; the store is as it was. *)
Theorem fieldless_asset_type_rejected (ds_type : DatasourceType) (t : PyClass)
    (rest : list PyClass) (h : TypeLookup.handle) (st : State) :
  List.filter is_public (asset_types ds_type) = t :: rest →
  cls_fields t !! "type" = None →
  _register_assets ds_type h st
  = (inl (TypeRegistrationError
            ("No `type` field found for `" +:+ cls_name ds_type +:+ ".asset_types` -> `"
               +:+ cls_name t +:+ "` unable to register asset type")
            (Some (KeyError "type"))),
     st).
Proof.
  intros Hf Hfield. rewrite register_assets_public_only, Hf.
  cbn [register_assets_loop]. rewrite run_bind.
  assert (Hp : is_public t = true).
  { assert (Hin : In t (List.filter is_public (asset_types ds_type))) by (rewrite Hf; by left).
    by apply List.filter_In in Hin as [_ ?]. }
  rewrite (run_register_asset_bad_field ds_type t h st (KeyError "type"));
    [done | done | | done].
  unfold register_asset_try, _get_field_details. by rewrite Hfield.
Qed.

Lemma fieldless_asset_type_rejected_witness :
  List.filter is_public (asset_types MoreSamples.FieldlessFirstDatasource)
    = MoreSamples.FieldlessAsset :: [] ∧
  cls_fields MoreSamples.FieldlessAsset !! "type" = None ∧
  _register_assets MoreSamples.FieldlessFirstDatasource
    (asset_handle MoreSamples.FieldlessFirstDatasource initial_state) initial_state
  = (inl (TypeRegistrationError
            ("No `type` field found for `" +:+ cls_name MoreSamples.FieldlessFirstDatasource
               +:+ ".asset_types` -> `" +:+ cls_name MoreSamples.FieldlessAsset
               +:+ "` unable to register asset type")
            (Some (KeyError "type"))),
     initial_state).
Proof.
  split; [reflexivity|]. split; [reflexivity|].
  apply (fieldless_asset_type_rejected MoreSamples.FieldlessFirstDatasource
           MoreSamples.FieldlessAsset []); reflexivity.
Defined.

Lemma register_asset_try_untagged t h :
  declared_type t = Py.PyNone →
  ∃ e, register_asset_try t h = inl e ∧ bad_field_exc e = true.
Proof.
  unfold declared_type, register_asset_try, _get_field_details.
  destruct (cls_fields t !! "type") as [fi|]; [|by eexists].
  simpl. intros ->. by eexists.
Qed.

Lemma register_assets_loop_untagged ds_type ts t :
  t ∈ ts → is_public t = true → declared_type t = Py.PyNone →
  ∀ h st, ∃ e st', register_assets_loop ds_type ts h st = (inl e, st').
Proof.
  intros Hin Hp Hd. induction ts as [|t0 ts IH]; [by apply elem_of_nil in Hin|].
  intros h st. cbn [register_assets_loop]. rewrite run_bind.
  destruct (register_asset ds_type t0 h st) as [[e|h'] st0] eqn:Hr; [by eexists _, _|].
  apply elem_of_cons in Hin as [<-|Hin]; [|by apply IH].
  destruct (register_asset_try_untagged t h Hd) as (e & He & Hb).
  rewrite (run_register_asset_bad_field _ _ _ _ e) in Hr by done. done.
Qed.

(** X4. A datasource class that lists a public asset type without a tag,
    be it a [type] field without a value or no [type] field, can never be
    registered: the call raises, and the tag-to-type maps, the factory
    table and the names of the function objects are as before. *)
Theorem untagged_asset_blocks_registration (ds_type : DatasourceType) (factory_fn : fn_ref)
    (st : State) (t : PyClass) :
  t ∈ asset_types ds_type →
  is_public t = true →
  declared_type t = Py.PyNone →
  ∃ e st',
    register_types_and_ds_factory ds_type factory_fn st = (inl e, st') ∧ same_tables st st'.
Proof.
  intros Hin Hp Hd.
  destruct (register_types_and_ds_factory ds_type factory_fn st) as [[e|u] st'] eqn:Hr.
  - exists e, st'. split; [done|]. by eapply register_failure_same_tables.
  - apply register_success in Hr as (_ & _ & h2 & st1 & _ & _ & Ha & _).
    destruct (register_assets_loop_untagged ds_type _ t Hin Hp Hd
                (asset_handle ds_type st) st) as (e & st0 & He).
    unfold _register_assets in Ha. congruence.
Qed.

Lemma untagged_asset_blocks_registration_witness :
  Sample.UntypedAsset ∈ asset_types Sample.BrokenDatasource ∧
  is_public Sample.UntypedAsset = true ∧
  declared_type Sample.UntypedAsset = Py.PyNone ∧
  ∃ e st',
    register_types_and_ds_factory Sample.BrokenDatasource Sample.other_factory
      Sample.csv_registered = (inl e, st') ∧
    same_tables Sample.csv_registered st'.
Proof.
  assert (Hin : Sample.UntypedAsset ∈ asset_types Sample.BrokenDatasource).
  { apply list_elem_of_further, list_elem_of_here. }
  split; [exact Hin|]. split; [reflexivity|]. split; [reflexivity|].
  apply (untagged_asset_blocks_registration Sample.BrokenDatasource Sample.other_factory
           Sample.csv_registered Sample.UntypedAsset Hin); reflexivity.
Defined.

(** ** The operations bound on a registered datasource class *)

(** X5. After a registration that went through, every public asset type of
    the class has a tag [n] and the class has [add_<n>_asset] among its own
    attributes; when it had no such attribute before the call, both
    [add_<n>_asset] and [read_<n>] are bound to operations generated over
    one asset type, the first named after the attribute and the second
    still named [_read_asset_factory]. *)
Theorem registered_class_has_asset_operations (ds_type : DatasourceType)
    (factory_fn : fn_ref) (st st' : State) (t : PyClass) :
  register_types_and_ds_factory ds_type factory_fn st = (inr tt, st') →
  t ∈ asset_types ds_type →
  is_public t = true →
  ∃ n, declared_type t = Py.PyStr n ∧
       is_Some (__dict__ st' (cls_ref ds_type) !! ("add_" +:+ n +:+ "_asset")) ∧
       (__dict__ st (cls_ref ds_type) !! ("add_" +:+ n +:+ "_asset") = None →
        ∃ a,
          __dict__ st' (cls_ref ds_type) !! ("add_" +:+ n +:+ "_asset")
            = Some (AddAssetFactory a ("add_" +:+ n +:+ "_asset")) ∧
          __dict__ st' (cls_ref ds_type) !! ("read_" +:+ n)
            = Some (ReadAssetFactory a "_read_asset_factory")).
Proof.
  intros Hr Hin Hp.
  apply register_success in Hr as (_ & h1 & h2 & st1 & _ & _ & Ha & _ & _ & ->).
  unfold _register_assets in Ha.
  destruct (loop_asset_operations ds_type _ _ _ _ _ Ha t Hin Hp) as (n & Hd & Hsome & Hgen).
  exists n. split; [done|]. rewrite dict_committed_state. split; [done|]. apply Hgen.
Qed.

Lemma registered_class_has_asset_operations_witness :
  register_types_and_ds_factory MoreSamples.PandasDatasource MoreSamples.pandas_factory
    initial_state = (inr tt, MoreSamples.pandas_registered) ∧
  MoreSamples.TableAsset ∈ asset_types MoreSamples.PandasDatasource ∧
  is_public MoreSamples.TableAsset = true ∧
  ∃ n, declared_type MoreSamples.TableAsset = Py.PyStr n ∧
       is_Some (__dict__ MoreSamples.pandas_registered (cls_ref MoreSamples.PandasDatasource)
                  !! ("add_" +:+ n +:+ "_asset")) ∧
       (__dict__ initial_state (cls_ref MoreSamples.PandasDatasource)
          !! ("add_" +:+ n +:+ "_asset") = None →
        ∃ a,
          __dict__ MoreSamples.pandas_registered (cls_ref MoreSamples.PandasDatasource)
            !! ("add_" +:+ n +:+ "_asset")
            = Some (AddAssetFactory a ("add_" +:+ n +:+ "_asset")) ∧
          __dict__ MoreSamples.pandas_registered (cls_ref MoreSamples.PandasDatasource)
            !! ("read_" +:+ n)
            = Some (ReadAssetFactory a "_read_asset_factory")).
Proof.
  assert (Hin : MoreSamples.TableAsset ∈ asset_types MoreSamples.PandasDatasource).
  { apply list_elem_of_further, list_elem_of_here. }
  split; [reflexivity|]. split; [exact Hin|]. split; [reflexivity|].
  apply (registered_class_has_asset_operations MoreSamples.PandasDatasource
           MoreSamples.pandas_factory initial_state MoreSamples.pandas_registered
           MoreSamples.TableAsset); [reflexivity | exact Hin | reflexivity].
Defined.

(** ** What registration calls leave alone *)

(** X6. The factory table only grows: a name that is in the table stays in
    it, bound to the same function object, through any sequence of further
    registration calls, whether they go through or raise. *)
Theorem factory_table_only_grows (calls : list (DatasourceType * fn_ref)) (st : State)
    (name : string) (fn : fn_ref) :
  dict_get (source_factories st) name = Some fn →
  dict_get (source_factories (register_all calls st).2) name = Some fn ∧
  name ∈ factories (register_all calls st).2.
Proof.
  intros Hg. apply (register_all_keeps_factory calls) in Hg. split; [done|].
  unfold factories, dict_keys.
  generalize dependent (source_factories (register_all calls st).2).
  intros d. induction d as [|[k v] d IH]; simpl; [done|].
  case_bool_decide as Hk; [subst k; intros _; apply list_elem_of_here|].
  intros H. apply list_elem_of_further. by apply IH.
Qed.

Lemma factory_table_only_grows_witness :
  dict_get (source_factories Sample.csv_registered) "add_csv" = Some Sample.csv_factory ∧
  dict_get (source_factories
              (register_all [(Sample.OtherCsvDatasource, Sample.other_factory);
                             (Sample.SqlDatasource, Sample.sql_factory)]
                 Sample.csv_registered).2) "add_csv" = Some Sample.csv_factory ∧
  "add_csv" ∈ factories
                (register_all [(Sample.OtherCsvDatasource, Sample.other_factory);
                               (Sample.SqlDatasource, Sample.sql_factory)]
                   Sample.csv_registered).2.
Proof.
  split; [reflexivity|].
  apply (factory_table_only_grows
           [(Sample.OtherCsvDatasource, Sample.other_factory);
            (Sample.SqlDatasource, Sample.sql_factory)]
           Sample.csv_registered "add_csv" Sample.csv_factory).
  reflexivity.
Defined.

Lemma dict_get_app_other {V : Type} (d : list (string * V)) k v k' :
  k ≠ k' → dict_get (d ++ [(k, v)]) k' = dict_get d k'.
Proof.
  intros Hne. induction d as [|[k0 v0] d IH]; simpl.
  - by rewrite bool_decide_eq_false_2.
  - by destruct (bool_decide (k0 = k')).
Qed.

(** The attributes of the classes other than [c0] agree in two stores. *)
Lemma register_other_classes (ds_type : DatasourceType) factory_fn st c :
  c ≠ cls_ref ds_type →
  __dict__ (register_types_and_ds_factory ds_type factory_fn st).2 c = __dict__ st c.
Proof.
  intros Hc. revert c Hc.
  apply (register_preserves
           (λ st st', ∀ c, c ≠ cls_ref ds_type → __dict__ st' c = __dict__ st c)).
  - intros st1 st2 st2' Heq H c Hc. rewrite Heq. by apply H.
  - done.
  - intros st1 st2 st3 H12 H23 c Hc. rewrite H23, H12; done.
  - intros t n st0 c Hc. unfold bound. destruct (_ !! _); [done|].
    rewrite !dict_setattr. by rewrite !bool_decide_eq_false_2.
Qed.

(** X7. A registration call for the class [ds_type] with the function
    [factory_fn], whatever its outcome, leaves alone the attributes and the
    map of every other class, the name of every other function object, and
    the entry of the factory table under every name other than the one
    derived from the class. *)
Theorem registration_frame (ds_type : DatasourceType) (factory_fn : fn_ref) (st : State) :
  (∀ c, c ≠ cls_ref ds_type →
        __dict__ (register_types_and_ds_factory ds_type factory_fn st).2 c = __dict__ st c ∧
        _type_lookup (register_types_and_ds_factory ds_type factory_fn st).2 c
          = _type_lookup st c) ∧
  (∀ fn, fn ≠ factory_fn →
         fn_name (register_types_and_ds_factory ds_type factory_fn st).2 !! fn
           = fn_name st !! fn) ∧
  (∀ name, name ≠ method_name_of ds_type →
           dict_get (source_factories (register_types_and_ds_factory ds_type factory_fn st).2)
             name = dict_get (source_factories st) name).
Proof.
  split; [|split].
  - intros c Hc. split; [by apply register_other_classes|].
    destruct (register_types_and_ds_factory ds_type factory_fn st) as [[e|u] st'] eqn:Hr.
    + apply register_failure_same_tables in Hr as (_ & Hl & _). apply Hl.
    + apply register_success in Hr as (_ & h1 & h2 & st1 & _ & _ & Ha & _ & _ & ->).
      pose proof (register_assets_same_tables ds_type (asset_handle ds_type st) st) as Hs.
      rewrite Ha in Hs. destruct Hs as (_ & Hl & _). simpl.
      unfold committed_state.
      change (_type_lookup (set_type_lookup ?m ?s) c) with (_type_lookup s c).
      rewrite type_lookup_set__type_lookup, bool_decide_eq_false_2 by done. apply Hl.
  - intros fn Hfn.
    destruct (register_types_and_ds_factory ds_type factory_fn st) as [[e|u] st'] eqn:Hr;
      simpl.
    + by apply register_failure_same_tables in Hr as (_ & _ & _ & ->).
    + apply register_success_tables in Hr as (_ & _ & ->).
      by rewrite lookup_insert_ne.
  - intros name Hname.
    destruct (register_types_and_ds_factory ds_type factory_fn st) as [[e|u] st'] eqn:Hr;
      simpl.
    + by apply register_failure_same_tables in Hr as (_ & _ & -> & _).
    + apply register_success_tables in Hr as (_ & -> & _).
      apply dict_get_app_other. congruence.
Qed.

Section ResolutionFacts.

Context {W obj Kwargs : Type}.
Context (call_factory : fn_ref → string → Kwargs → SE W obj).
Context (set_data_context : obj → obj → SE W unit).
Context (_attach_datasource_to_context : obj → obj → SE W unit).
Context (logger_debug : string → W → W).
Context (str_of : obj → W → string).
Context (has_signature : fn_ref → bool).

(** X8. From registration to use: after a registration that went through,
    [add_<tag>] is among [factories].  When the registered function has no
    [__signature__], as a plain function has none, resolving [add_<tag>] on
    the facade raises the [AttributeError] of that attribute.  When it has
    one, the name resolves, and calling what it resolves to runs the
    registered function with the caller's name and keyword arguments; when
    the function raises, the call raises the same exception and nothing is
    attached; when it has built an instance on which the context reference
    is set, that instance is attached to the context and returned. *)
Theorem registered_factory_builds_and_attaches (ds_type : DatasourceType)
    (factory_fn : fn_ref) (st st' : State) (self : obj) (name : string) (kwargs : Kwargs)
    (w : W) :
  register_types_and_ds_factory ds_type factory_fn st = (inr tt, st') →
  ∃ tag,
    declared_type ds_type = Py.PyStr tag ∧
    "add_" +:+ tag ∈ factories st' ∧
    (has_signature factory_fn = false →
     __getattr__ call_factory set_data_context _attach_datasource_to_context
       logger_debug str_of has_signature st' self ("add_" +:+ tag)
     = inl (AttributeError "'function' object has no attribute '__signature__'")) ∧
    (has_signature factory_fn = true →
     ∃ add_tag,
       __getattr__ call_factory set_data_context _attach_datasource_to_context
         logger_debug str_of has_signature st' self ("add_" +:+ tag) = inr add_tag ∧
       (∀ e w1, call_factory factory_fn name kwargs w = (inl e, w1) →
                add_tag name kwargs w = (inl e, w1)) ∧
       (∀ datasource w1 w2,
           call_factory factory_fn name kwargs w = (inr datasource, w1) →
           set_data_context datasource self w1 = (inr tt, w2) →
           add_tag name kwargs w
           = match _attach_datasource_to_context self datasource w2 with
             | (inl e, w3) => (inl e, w3)
             | (inr _, w3) => (inr datasource, w3)
             end)).
Proof.
  intros Hr.
  pose proof (register_success _ _ _ _ _ Hr) as (tag & _ & _ & _ & Hd & _).
  apply register_success_tables in Hr as (Hnone & Hsf & _).
  unfold method_name_of in *. rewrite Hd in *. simpl in *.
  exists tag. split; [done|]. split.
  { unfold factories, dict_keys. rewrite Hsf, fmap_app. apply elem_of_app. right.
    apply list_elem_of_here. }
  assert (Hget : dict_get (source_factories st') ("add_" +:+ tag) = Some factory_fn).
  { rewrite Hsf, dict_get_app_None by done. simpl. by rewrite bool_decide_eq_true_2. }
  split; [intros Hsig; by apply getattr_unsigned with factory_fn|].
  intros Hsig. eexists. split; [by apply getattr_present|]. split.
  - intros e w1 Hc. unfold wrapped. run. by rewrite Hc.
  - intros datasource w1 w2 Hc Hs. unfold wrapped. run. rewrite Hc. run. rewrite Hs. run.
    by destruct (_attach_datasource_to_context self datasource w2) as [[?|?] ?].
Qed.

End ResolutionFacts.

Lemma registered_factory_builds_and_attaches_witness :
  register_types_and_ds_factory Sample.CsvDatasource Sample.csv_factory initial_state
    = (inr tt, Sample.csv_registered) ∧
  Sample.has_signature Sample.csv_factory = true ∧
  ∃ tag add_tag,
    declared_type Sample.CsvDatasource = Py.PyStr tag ∧
    "add_" +:+ tag ∈ factories Sample.csv_registered ∧
    __getattr__ Sample.call_factory (Sample.set_data_context None)
      Sample._attach_datasource_to_context Sample.logger_debug Sample.str_of
      Sample.has_signature Sample.csv_registered 0 ("add_" +:+ tag) = inr add_tag ∧
    (∀ e w1, Sample.call_factory Sample.csv_factory "my_csv" tt Sample.empty_world
               = (inl e, w1) →
             add_tag "my_csv" tt Sample.empty_world = (inl e, w1)) ∧
    (∀ datasource w1 w2,
        Sample.call_factory Sample.csv_factory "my_csv" tt Sample.empty_world
          = (inr datasource, w1) →
        Sample.set_data_context None datasource 0 w1 = (inr tt, w2) →
        add_tag "my_csv" tt Sample.empty_world
        = match Sample._attach_datasource_to_context 0 datasource w2 with
          | (inl e, w3) => (inl e, w3)
          | (inr _, w3) => (inr datasource, w3)
          end).
Proof.
  split; [reflexivity|]. split; [reflexivity|].
  destruct (registered_factory_builds_and_attaches Sample.call_factory
              (Sample.set_data_context None) Sample._attach_datasource_to_context
              Sample.logger_debug Sample.str_of Sample.has_signature
              Sample.CsvDatasource Sample.csv_factory initial_state Sample.csv_registered 0
              "my_csv" tt Sample.empty_world eq_refl)
    as (tag & Hd & Hin & _ & Hsig).
  destruct (Hsig eq_refl) as (add_tag & Hget & Hraise & Hbuilt).
  exists tag, add_tag. repeat split; assumption.
Defined.

(** A function registered without a [__signature__] is listed among the
    factories and does not resolve. *)
Example plain_function_does_not_resolve :
  "add_csv" ∈ factories Sample.csv_registered ∧
  __getattr__ Sample.call_factory (Sample.set_data_context None)
    Sample._attach_datasource_to_context Sample.logger_debug Sample.str_of
    MoreSamples.plain_function Sample.csv_registered 0 "add_csv"
  = inl (AttributeError "'function' object has no attribute '__signature__'").
Proof. split; [apply list_elem_of_here | reflexivity]. Qed.

(** ** The types a registration records *)

Lemma get_app_Some (m m' : TypeLookup.t) tag ty :
  TypeLookup.get m tag = Some ty → TypeLookup.get (m ++ m') tag = Some ty.
Proof.
  induction m as [|[tag0 ty0] m IH]; simpl; [done|].
  destruct (bool_decide (tag0 = tag)); auto.
Qed.

Lemma get_app_None (m m' : TypeLookup.t) tag :
  TypeLookup.get m tag = None → TypeLookup.get (m ++ m') tag = TypeLookup.get m' tag.
Proof.
  induction m as [|[tag0 ty0] m IH]; simpl; [done|].
  destruct (bool_decide (tag0 = tag)); [done | auto].
Qed.

Lemma get_is_Some_names (m : TypeLookup.t) tag :
  is_Some (TypeLookup.get m tag) ↔ tag ∈ TypeLookup.names m.
Proof.
  unfold TypeLookup.names. induction m as [|[tag0 ty0] m IH]; simpl.
  - split; [by intros [? ?] | by intros ?%elem_of_nil].
  - rewrite elem_of_cons. case_bool_decide as Ht.
    + split; [by left | by eexists].
    + rewrite IH. split; [by right | by intros [?|?]].
Qed.

(** What a staged [set] that went through leaves in the handle: the new
    pair can be looked up, and so can everything that could before. *)
Lemma setitem_get h ty tag h' :
  TypeLookup.setitem h ty tag = inr h' →
  TypeLookup.get (TypeLookup.view h') tag = Some ty ∧
  ∀ tag0 ty0, TypeLookup.get (TypeLookup.view h) tag0 = Some ty0 →
              TypeLookup.get (TypeLookup.view h') tag0 = Some ty0.
Proof.
  unfold TypeLookup.setitem.
  destruct (TypeLookup.check (TypeLookup.view h) ty tag) as [e|new] eqn:Hc; [done|].
  intros [= <-]. unfold TypeLookup.view in *. simpl. rewrite app_assoc.
  split; [|intros tag0 ty0; apply get_app_Some].
  revert Hc. unfold TypeLookup.check.
  destruct (TypeLookup.get (TypeLookup.committed h ++ TypeLookup.staged h) tag) as [ty'|] eqn:Hg.
  - case_bool_decide as Hty; [subst ty'|done].
    intros _. by apply get_app_Some.
  - destruct (TypeLookup.getTag _ ty); [done|]. intros [= <-].
    rewrite get_app_None by done. simpl. by rewrite bool_decide_eq_true_2.
Qed.

Lemma run_register_asset_staged ds_type t h st h' st' :
  is_public t = true → register_asset ds_type t h st = (inr h', st') →
  ∃ n, declared_type t = Py.PyStr n ∧ TypeLookup.setitem h (cls_ref t) n = inr h'.
Proof.
  unfold is_public, register_asset. intros Hp%negb_true_iff. rewrite Hp.
  destruct (register_asset_try t h) as [e|[n h0]] eqn:Ht.
  { by destruct (bad_field_exc e). }
  run. rewrite run_bind_asset_factory. intros [= <- _].
  revert Ht. unfold register_asset_try, declared_type.
  destruct (_get_field_details t "type") as [e|details]; [done|]. simpl.
  destruct (default_value details) as [|n']; [done|].
  destruct (TypeLookup.setitem h (cls_ref t) n') eqn:Hs; [done|].
  intros [= <- <-]. by exists n'.
Qed.

Lemma run_register_asset_view ds_type t h st h' st' :
  register_asset ds_type t h st = (inr h', st') →
  ∀ tag0 ty0, TypeLookup.get (TypeLookup.view h) tag0 = Some ty0 →
              TypeLookup.get (TypeLookup.view h') tag0 = Some ty0.
Proof.
  destruct (is_public t) eqn:Hp.
  - intros (n & _ & Hs)%run_register_asset_staged; [|done]. by apply setitem_get in Hs as [_ ?].
  - rewrite run_register_asset_private by done. by intros [= <- _].
Qed.

Lemma loop_records_types ds_type ts :
  ∀ h st h' st1,
    register_assets_loop ds_type ts h st = (inr h', st1) →
    (∀ tag0 ty0, TypeLookup.get (TypeLookup.view h) tag0 = Some ty0 →
                 TypeLookup.get (TypeLookup.view h') tag0 = Some ty0) ∧
    (∀ t, t ∈ ts → is_public t = true →
          ∃ n, declared_type t = Py.PyStr n ∧
               TypeLookup.get (TypeLookup.view h') n = Some (cls_ref t)).
Proof.
  induction ts as [|t0 ts IH]; intros h st h' st1 Hloop.
  { cbn in Hloop. injection Hloop as <- _. split; [done|]. by intros t ?%elem_of_nil. }
  cbn [register_assets_loop] in Hloop. rewrite run_bind in Hloop.
  destruct (register_asset ds_type t0 h st) as [[e|h0] st0] eqn:Hr; [done|].
  destruct (IH _ _ _ _ Hloop) as [Hgrow Hrec].
  pose proof (run_register_asset_view _ _ _ _ _ _ Hr) as Hgrow0.
  split; [by auto|].
  intros t [->|Hin]%elem_of_cons Hp; [|by apply Hrec].
  destruct (run_register_asset_staged _ _ _ _ _ _ Hp Hr) as (n & Hd & Hs).
  exists n. split; [done|]. apply Hgrow. by apply setitem_get in Hs as [? _].
Qed.

(** X9. After a registration that went through, the class-wide map gives
    the datasource class for its tag and still gives what it gave before,
    and the map of the class gives, for every public asset type, that type
    for its tag. *)
Theorem registration_records_types (ds_type : DatasourceType) (factory_fn : fn_ref)
    (st st' : State) :
  register_types_and_ds_factory ds_type factory_fn st = (inr tt, st') →
  (∃ tag, declared_type ds_type = Py.PyStr tag ∧
          TypeLookup.get (type_lookup st') tag = Some (cls_ref ds_type)) ∧
  (∀ tag0 ty0, TypeLookup.get (type_lookup st) tag0 = Some ty0 →
               TypeLookup.get (type_lookup st') tag0 = Some ty0) ∧
  (∀ t, t ∈ asset_types ds_type → is_public t = true →
        ∃ n, declared_type t = Py.PyStr n ∧
             TypeLookup.get (_type_lookup st' (cls_ref ds_type)) n = Some (cls_ref t)).
Proof.
  intros (tag & h1 & h2 & st1 & Hd & _ & Ha & _ & Hs & ->)%register_success.
  apply setitem_get in Hs as [Hget Hgrow].
  split; [by exists tag|]. split.
  - intros tag0 ty0 H. apply Hgrow. unfold ds_handle, TypeLookup.view. simpl.
    by rewrite app_nil_r.
  - intros t Hin Hp. unfold _register_assets in Ha.
    destruct (loop_records_types _ _ _ _ _ _ Ha) as [_ Hrec].
    destruct (Hrec t Hin Hp) as (n & Hn & Hg). exists n. split; [done|].
    unfold committed_state.
    change (_type_lookup (set_type_lookup ?m ?s) ?c) with (_type_lookup s c).
    by rewrite type_lookup_set__type_lookup, bool_decide_eq_true_2.
Qed.

Lemma registration_records_types_witness :
  register_types_and_ds_factory MoreSamples.PandasDatasource MoreSamples.pandas_factory
    Sample.csv_registered
  = (inr tt, (register_types_and_ds_factory MoreSamples.PandasDatasource
                MoreSamples.pandas_factory Sample.csv_registered).2) ∧
  (∃ tag, declared_type MoreSamples.PandasDatasource = Py.PyStr tag ∧
          TypeLookup.get
            (type_lookup (register_types_and_ds_factory MoreSamples.PandasDatasource
                            MoreSamples.pandas_factory Sample.csv_registered).2) tag
          = Some (cls_ref MoreSamples.PandasDatasource)) ∧
  (∀ tag0 ty0, TypeLookup.get (type_lookup Sample.csv_registered) tag0 = Some ty0 →
               TypeLookup.get
                 (type_lookup (register_types_and_ds_factory MoreSamples.PandasDatasource
                                 MoreSamples.pandas_factory Sample.csv_registered).2) tag0
               = Some ty0) ∧
  (∀ t, t ∈ asset_types MoreSamples.PandasDatasource → is_public t = true →
        ∃ n, declared_type t = Py.PyStr n ∧
             TypeLookup.get
               (_type_lookup (register_types_and_ds_factory MoreSamples.PandasDatasource
                                MoreSamples.pandas_factory Sample.csv_registered).2
                  (cls_ref MoreSamples.PandasDatasource)) n
             = Some (cls_ref t)).
Proof.
  split; [reflexivity|].
  apply (registration_records_types MoreSamples.PandasDatasource MoreSamples.pandas_factory
           Sample.csv_registered).
  reflexivity.
Defined.

(** ** Iterating over the registered types *)

Lemma iter_asset_types_spec (m : TypeLookup.t) (asset_names : list string) :
  (∀ n, n ∈ asset_names → n ∈ TypeLookup.names m) →
  (iter_asset_types m asset_names).2 = None ∧
  ∀ n ty, (n, ty) ∈ (iter_asset_types m asset_names).1 ↔
          n ∈ asset_names ∧ TypeLookup.get m n = Some ty.
Proof.
  induction asset_names as [|n0 l IH]; intros Hsub.
  { split; [done|]. intros n ty. simpl. split; [by intros ?%elem_of_nil|].
    by intros [?%elem_of_nil _]. }
  cbn [iter_asset_types]. unfold type_lookup_getitem.
  assert (Hn0 : is_Some (TypeLookup.get m n0)).
  { apply get_is_Some_names, Hsub, list_elem_of_here. }
  destruct Hn0 as [ty0 Hty0]. rewrite Hty0.
  destruct IH as [Hend Hmem].
  { intros n Hn. apply Hsub. by apply list_elem_of_further. }
  destruct (iter_asset_types m l) as [ys end_]. simpl in *. split; [done|].
  intros n ty. rewrite !elem_of_cons, Hmem. split.
  - intros [[= -> ->]|[? ?]]; [by split; [left|] | by split; [right|]].
  - intros [[->|?] Hg]; [left; congruence | by right].
Qed.

Lemma iter_datasource_types_spec (st : State) (ds_names : list string) :
  (∀ n, n ∈ ds_names → n ∈ TypeLookup.names (type_lookup st)) →
  (iter_datasource_types st ds_names).2 = None ∧
  ∀ n ty, (n, ty) ∈ (iter_datasource_types st ds_names).1 ↔
          (n ∈ ds_names ∧ TypeLookup.get (type_lookup st) n = Some ty) ∨
          (∃ ds_name ds_type,
              ds_name ∈ ds_names ∧
              TypeLookup.get (type_lookup st) ds_name = Some ds_type ∧
              TypeLookup.get (_type_lookup st ds_type) n = Some ty).
Proof.
  induction ds_names as [|d0 l IH]; intros Hsub.
  { split; [done|]. intros n ty. simpl. split; [by intros ?%elem_of_nil|].
    intros [[?%elem_of_nil _]|(? & ? & ?%elem_of_nil & _)]; done. }
  cbn [iter_datasource_types]. unfold type_lookup_getitem.
  assert (Hd0 : is_Some (TypeLookup.get (type_lookup st) d0)).
  { apply get_is_Some_names, Hsub, list_elem_of_here. }
  destruct Hd0 as [ty0 Hty0]. rewrite Hty0.
  destruct (iter_asset_types_spec (_type_lookup st ty0)
              (TypeLookup.names (_type_lookup st ty0))) as [Hend0 Hmem0]; [done|].
  destruct (iter_asset_types (_type_lookup st ty0) _) as [ys end0]. simpl in Hend0, Hmem0.
  subst end0.
  destruct IH as [Hend Hmem].
  { intros n Hn. apply Hsub. by apply list_elem_of_further. }
  destruct (iter_datasource_types st l) as [zs end_]. simpl in *. split; [done|].
  intros n ty. rewrite elem_of_cons, elem_of_app, Hmem0, Hmem. split.
  - intros [[= -> ->]|[[Hn Hg]|[[Hn Hg]|(d & dty & Hd & Hg1 & Hg2)]]].
    + left. split; [apply list_elem_of_here | done].
    + right. exists d0, ty0. split; [apply list_elem_of_here | done].
    + left. split; [by apply list_elem_of_further | done].
    + right. exists d, dty. split; [by apply list_elem_of_further | done].
  - intros [[[->|Hn]%elem_of_cons Hg]|(d & dty & [->|Hd]%elem_of_cons & Hg1 & Hg2)].
    + left. congruence.
    + right. right. left. done.
    + right. left. assert (dty = ty0) as -> by congruence.
      split; [|done]. apply get_is_Some_names. by eexists.
    + right. right. right. by exists d, dty.
Qed.

(** X10. [_iter_all_registered_types] never raises: every name it takes
    from a map it finds in that map.  It yields a pair of a name and a type
    exactly when the class-wide map gives the type for the name, or the map
    of a class registered in the class-wide map does. *)
Theorem iter_all_registered_types_yields (st : State) :
  (_iter_all_registered_types st).2 = None ∧
  ∀ name ty,
    (name, ty) ∈ (_iter_all_registered_types st).1 ↔
    TypeLookup.get (type_lookup st) name = Some ty ∨
    (∃ ds_name ds_type,
        TypeLookup.get (type_lookup st) ds_name = Some ds_type ∧
        TypeLookup.get (_type_lookup st ds_type) name = Some ty).
Proof.
  unfold _iter_all_registered_types.
  destruct (iter_datasource_types_spec st (TypeLookup.names (type_lookup st)))
    as [Hend Hmem]; [done|].
  split; [done|]. intros name ty. rewrite Hmem. split.
  - intros [[_ Hg]|(d & dty & _ & Hg1 & Hg2)]; [by left | right; by exists d, dty].
  - intros [Hg|(d & dty & Hg1 & Hg2)].
    + left. split; [|done]. apply get_is_Some_names. by eexists.
    + right. exists d, dty. split; [|done]. apply get_is_Some_names. by eexists.
Qed.

(** ** The default pandas datasource *)

Section PandasDefaultFacts.

Context {W obj Kwargs : Type}.
Context (call_factory : fn_ref → string → Kwargs → SE W obj).
Context (set_data_context : obj → obj → SE W unit).
Context (_attach_datasource_to_context : obj → obj → SE W unit).
Context (logger_debug : string → W → W).
Context (str_of : obj → W → string).
Context (has_signature : fn_ref → bool).
Context (datasources_get : obj → string → SE W (option obj)).
Context (is_PandasDatasource : obj → bool).
Context (bool_of : obj → bool).
Context (no_kwargs : Kwargs).

Local Abbreviation the_pandas_default :=
  (pandas_default call_factory set_data_context _attach_datasource_to_context
     logger_debug str_of has_signature datasources_get is_PandasDatasource bool_of
     no_kwargs).

Local Abbreviation the_getattr_pandas_default :=
  (getattr_pandas_default call_factory set_data_context _attach_datasource_to_context
     logger_debug str_of has_signature datasources_get is_PandasDatasource bool_of
     no_kwargs).

Local Abbreviation the_getattr :=
  (__getattr__ call_factory set_data_context _attach_datasource_to_context
     logger_debug str_of has_signature).

(** What the getter returns is what the expression evaluates to. *)
Lemma getattr_pandas_default_returned st self w datasource w' :
  the_pandas_default st self w = (inr datasource, w') →
  the_getattr_pandas_default st self w = (inr (Datasource datasource), w').
Proof. intros H. unfold getattr_pandas_default. by rewrite H. Qed.

(** A [DefaultPandasDatasourceError] of the getter is the outcome of the
    expression. *)
Lemma getattr_pandas_default_legacy st self w msg w' :
  the_pandas_default st self w = (inl (DefaultPandasDatasourceError msg), w') →
  the_getattr_pandas_default st self w = (inl (DefaultPandasDatasourceError msg), w').
Proof. intros H. unfold getattr_pandas_default. by rewrite H. Qed.

(** An [AttributeError] of the getter is replaced by the outcome of
    [__getattr__] for the name of the property. *)
Lemma getattr_pandas_default_fallback st self w msg w' :
  the_pandas_default st self w = (inl (Raised (AttributeError msg)), w') →
  the_getattr_pandas_default st self w
  = match the_getattr st self "pandas_default" with
    | inl e => (inl (Raised e), w')
    | inr wrapped_fn => (inr (Factory wrapped_fn), w')
    end.
Proof. intros H. unfold getattr_pandas_default. by rewrite H. Qed.

(** X11. When the context already has a datasource under the default name
    that is not a [PandasDatasource], [pandas_default] raises
    [DefaultPandasDatasourceError] naming [default_pandas_datasource]; no
    factory is looked up or called, whatever the registry holds.  The error
    is what the caller of [sources.pandas_default] sees. *)
Theorem pandas_default_legacy_conflict (st : State) (self : obj) (w : W)
    (existing : obj) (w1 : W) :
  datasources_get self "default_pandas_datasource" w = (inr (Some existing), w1) →
  bool_of existing = true →
  is_PandasDatasource existing = false →
  the_pandas_default st self w
  = (inl (DefaultPandasDatasourceError legacy_datasource_message), w1) ∧
  Repr.occurs_in "default_pandas_datasource" legacy_datasource_message ∧
  the_getattr_pandas_default st self w
  = (inl (DefaultPandasDatasourceError legacy_datasource_message), w1).
Proof.
  intros Hget Hb Hp.
  assert (Hgetter : the_pandas_default st self w
                    = (inl (DefaultPandasDatasourceError legacy_datasource_message), w1)).
  { unfold pandas_default, DEFAULT_PANDAS_DATASOURCE_NAME. rewrite Hget.
    unfold is_legacy_conflict. by rewrite Hb, Hp. }
  split; [done|]. split; [|by apply getattr_pandas_default_legacy].
  exists ("A datasource with a legacy type already exists with the name: "
            +:+ String Repr.dquote ""),
         (String Repr.dquote ". "
            +:+ "Please rename this datasources if you wish to use the pandas_default `PandasDatasource`.").
  vm_compute. reflexivity.
Qed.

(** X12. Without a datasource under the default name and without an
    [add_pandas] factory in the table, the getter of [pandas_default]
    raises the [AttributeError] of the facade for [add_pandas].  The caller
    of [sources.pandas_default] does not see that exception: the class
    defines [__getattr__], which is then called with the name
    [pandas_default], and as the table has no such name the caller sees
    [No factory pandas_default in <list>], the list being that of the
    registered factories. *)
Theorem pandas_default_without_factory (st : State) (self : obj) (w w1 : W) :
  datasources_get self "default_pandas_datasource" w = (inr None, w1) →
  dict_get (source_factories st) "add_pandas" = None →
  dict_get (source_factories st) "pandas_default" = None →
  the_pandas_default st self w
  = (inl (Raised (AttributeError
                    ("No factory add_pandas in " +:+ Repr.repr_list (factories st)))), w1) ∧
  the_getattr_pandas_default st self w
  = (inl (Raised (AttributeError
                    ("No factory pandas_default in "
                       +:+ Repr.repr_list (source_factories st).*1))), w1).
Proof.
  intros Hget Hnone Hnone'.
  assert (Hgetter : the_pandas_default st self w
                    = (inl (Raised (AttributeError
                                      ("No factory add_pandas in "
                                         +:+ Repr.repr_list (factories st)))), w1)).
  { unfold pandas_default, DEFAULT_PANDAS_DATASOURCE_NAME. rewrite Hget.
    simpl. unfold add_pandas. by rewrite (getattr_absent _ _ _ _ _ _ _ _ _ Hnone). }
  split; [done|].
  rewrite (getattr_pandas_default_fallback _ _ _ _ _ Hgetter).
  by rewrite (getattr_absent _ _ _ _ _ _ _ _ _ Hnone').
Qed.

(** X13. The default datasource is created once.  When the context has no
    datasource under the default name and the function registered as
    [add_pandas] has a [__signature__], [sources.pandas_default] is what
    [add_pandas] builds under the name [default_pandas_datasource]; once the
    context gives that datasource back under the name, a second
    [sources.pandas_default] is the same object and no factory is looked up
    or called, whatever the registry then holds. *)
Theorem pandas_default_creates_once (st st2 : State) (self : obj) (w w1 : W)
    (add_pandas_fn : fn_ref) (created : obj) (w2 w3 : W) :
  datasources_get self "default_pandas_datasource" w = (inr None, w1) →
  dict_get (source_factories st) "add_pandas" = Some add_pandas_fn →
  has_signature add_pandas_fn = true →
  wrapped call_factory set_data_context _attach_datasource_to_context logger_debug str_of
    self add_pandas_fn "default_pandas_datasource" no_kwargs w1 = (inr created, w2) →
  datasources_get self "default_pandas_datasource" w2 = (inr (Some created), w3) →
  bool_of created = true →
  is_PandasDatasource created = true →
  the_getattr_pandas_default st self w = (inr (Datasource created), w2) ∧
  the_getattr_pandas_default st2 self w2 = (inr (Datasource created), w3).
Proof.
  intros Hget Hfn Hsig Hw Hget2 Hb Hp. split; apply getattr_pandas_default_returned.
  - unfold pandas_default, DEFAULT_PANDAS_DATASOURCE_NAME. rewrite Hget. simpl.
    unfold add_pandas. rewrite (getattr_present _ _ _ _ _ _ _ _ _ _ Hfn Hsig).
    by rewrite Hw.
  - unfold pandas_default, DEFAULT_PANDAS_DATASOURCE_NAME. rewrite Hget2.
    unfold is_legacy_conflict. by rewrite Hb, Hp.
Qed.

End PandasDefaultFacts.

Lemma pandas_default_legacy_conflict_witness :
  MoreSamples.datasources_get 0 "default_pandas_datasource" MoreSamples.legacy_world
    = (inr (Some 99), MoreSamples.legacy_world) ∧
  MoreSamples.bool_of 99 = true ∧
  MoreSamples.is_PandasDatasource 99 = false ∧
  pandas_default Sample.call_factory (Sample.set_data_context None)
    Sample._attach_datasource_to_context Sample.logger_debug Sample.str_of
    Sample.has_signature
    MoreSamples.datasources_get MoreSamples.is_PandasDatasource MoreSamples.bool_of tt
    MoreSamples.pandas_registered 0 MoreSamples.legacy_world
  = (inl (DefaultPandasDatasourceError legacy_datasource_message), MoreSamples.legacy_world) ∧
  Repr.occurs_in "default_pandas_datasource" legacy_datasource_message ∧
  getattr_pandas_default Sample.call_factory (Sample.set_data_context None)
    Sample._attach_datasource_to_context Sample.logger_debug Sample.str_of
    Sample.has_signature
    MoreSamples.datasources_get MoreSamples.is_PandasDatasource MoreSamples.bool_of tt
    MoreSamples.pandas_registered 0 MoreSamples.legacy_world
  = (inl (DefaultPandasDatasourceError legacy_datasource_message), MoreSamples.legacy_world).
Proof.
  split; [reflexivity|]. split; [reflexivity|]. split; [reflexivity|].
  apply (pandas_default_legacy_conflict Sample.call_factory (Sample.set_data_context None)
           Sample._attach_datasource_to_context Sample.logger_debug Sample.str_of
           Sample.has_signature
           MoreSamples.datasources_get MoreSamples.is_PandasDatasource MoreSamples.bool_of tt
           MoreSamples.pandas_registered 0 MoreSamples.legacy_world 99
           MoreSamples.legacy_world); reflexivity.
Defined.

Lemma pandas_default_without_factory_witness :
  MoreSamples.datasources_get 0 "default_pandas_datasource" Sample.empty_world
    = (inr None, Sample.empty_world) ∧
  dict_get (source_factories Sample.csv_registered) "add_pandas" = None ∧
  dict_get (source_factories Sample.csv_registered) "pandas_default" = None ∧
  pandas_default Sample.call_factory (Sample.set_data_context None)
    Sample._attach_datasource_to_context Sample.logger_debug Sample.str_of
    Sample.has_signature
    MoreSamples.datasources_get MoreSamples.is_PandasDatasource MoreSamples.bool_of tt
    Sample.csv_registered 0 Sample.empty_world
  = (inl (Raised (AttributeError
                    ("No factory add_pandas in "
                       +:+ Repr.repr_list (factories Sample.csv_registered)))),
     Sample.empty_world) ∧
  getattr_pandas_default Sample.call_factory (Sample.set_data_context None)
    Sample._attach_datasource_to_context Sample.logger_debug Sample.str_of
    Sample.has_signature
    MoreSamples.datasources_get MoreSamples.is_PandasDatasource MoreSamples.bool_of tt
    Sample.csv_registered 0 Sample.empty_world
  = (inl (Raised (AttributeError
                    ("No factory pandas_default in "
                       +:+ Repr.repr_list (source_factories Sample.csv_registered).*1))),
     Sample.empty_world).
Proof.
  split; [reflexivity|]. split; [reflexivity|]. split; [reflexivity|].
  apply (pandas_default_without_factory Sample.call_factory (Sample.set_data_context None)
           Sample._attach_datasource_to_context Sample.logger_debug Sample.str_of
           Sample.has_signature
           MoreSamples.datasources_get MoreSamples.is_PandasDatasource MoreSamples.bool_of tt
           Sample.csv_registered 0 Sample.empty_world Sample.empty_world); reflexivity.
Defined.

(** The message the caller of [sources.pandas_default] sees on the sample
    registry, as Python prints it. *)
Example pandas_default_without_factory_message :
  getattr_pandas_default Sample.call_factory (Sample.set_data_context None)
    Sample._attach_datasource_to_context Sample.logger_debug Sample.str_of
    Sample.has_signature
    MoreSamples.datasources_get MoreSamples.is_PandasDatasource MoreSamples.bool_of tt
    Sample.csv_registered 0 Sample.empty_world
  = (inl (Raised (AttributeError "No factory pandas_default in ['add_csv']")),
     Sample.empty_world).
Proof. reflexivity. Qed.

Lemma pandas_default_creates_once_witness :
  let w2 := {| Sample.logged := []; Sample.attached := [30] |} in
  MoreSamples.datasources_get 0 "default_pandas_datasource" Sample.empty_world
    = (inr None, Sample.empty_world) ∧
  dict_get (source_factories MoreSamples.pandas_registered) "add_pandas"
    = Some MoreSamples.pandas_factory ∧
  Sample.has_signature MoreSamples.pandas_factory = true ∧
  wrapped Sample.call_factory (Sample.set_data_context None)
    Sample._attach_datasource_to_context Sample.logger_debug Sample.str_of
    0 MoreSamples.pandas_factory "default_pandas_datasource" tt Sample.empty_world
    = (inr 30, w2) ∧
  MoreSamples.datasources_get 0 "default_pandas_datasource" w2 = (inr (Some 30), w2) ∧
  MoreSamples.bool_of 30 = true ∧
  MoreSamples.is_PandasDatasource 30 = true ∧
  getattr_pandas_default Sample.call_factory (Sample.set_data_context None)
    Sample._attach_datasource_to_context Sample.logger_debug Sample.str_of
    Sample.has_signature
    MoreSamples.datasources_get MoreSamples.is_PandasDatasource MoreSamples.bool_of tt
    MoreSamples.pandas_registered 0 Sample.empty_world = (inr (Datasource 30), w2) ∧
  getattr_pandas_default Sample.call_factory (Sample.set_data_context None)
    Sample._attach_datasource_to_context Sample.logger_debug Sample.str_of
    Sample.has_signature
    MoreSamples.datasources_get MoreSamples.is_PandasDatasource MoreSamples.bool_of tt
    initial_state 0 w2 = (inr (Datasource 30), w2).
Proof.
  intros w2.
  split; [reflexivity|]. split; [reflexivity|]. split; [reflexivity|].
  split; [reflexivity|]. split; [reflexivity|]. split; [reflexivity|].
  split; [reflexivity|].
  apply (pandas_default_creates_once Sample.call_factory (Sample.set_data_context None)
           Sample._attach_datasource_to_context Sample.logger_debug Sample.str_of
           Sample.has_signature
           MoreSamples.datasources_get MoreSamples.is_PandasDatasource MoreSamples.bool_of tt
           MoreSamples.pandas_registered initial_state 0 Sample.empty_world
           Sample.empty_world MoreSamples.pandas_factory 30 w2 w2); reflexivity.
Defined.

(** ** Collisions and repeated registration *)

(** X14. When the asset types of a class went through and the name derived
    from its tag is already in the factory table, the registration raises
    the [TypeRegistrationError] that names the tag and the factory method,
    without a cause; the maps are rolled back, and the class was not staged
    nor the function renamed. *)
Theorem collision_error (ds_type : DatasourceType) (factory_fn : fn_ref) (st : State)
    (tag : string) (h2 : TypeLookup.handle) (st1 : State) (pre_existing : fn_ref) :
  declared_type ds_type = Py.PyStr tag →
  tag ≠ "" →
  _register_assets ds_type (asset_handle ds_type st) st = (inr h2, st1) →
  dict_get (source_factories st) ("add_" +:+ tag) = Some pre_existing →
  register_types_and_ds_factory ds_type factory_fn st
  = (inl (TypeRegistrationError
            ("'" +:+ tag +:+ "' - `sources.add_" +:+ tag +:+ "()` factory already exists")
            None),
     rolled_back_state ds_type st st1) ∧
  fn_name (rolled_back_state ds_type st st1) = fn_name st ∧
  type_lookup (rolled_back_state ds_type st st1) = type_lookup st.
Proof.
  intros Hd Htag Ha Hg.
  pose proof (register_assets_same_tables ds_type (asset_handle ds_type st) st) as Hs.
  rewrite Ha in Hs. destruct Hs as (_ & _ & Hsf & Hfn). simpl in Hsf, Hfn.
  split; [|by split].
  rewrite run_register. unfold declared_type in Hd.
  destruct (_get_field_details ds_type "type") as [e|details]; [done|].
  simpl in Hd. rewrite Hd. simpl.
  rewrite bool_decide_eq_false_2 by done. simpl. rewrite Ha, Hsf, Hg.
  change "' - `sources.add_" with ("' - `sources." +:+ "add_").
  by rewrite (append_assoc "' - `sources." "add_"), (append_assoc "add_" tag).
Qed.

Lemma collision_error_witness :
  declared_type Sample.OtherCsvDatasource = Py.PyStr "csv" ∧
  "csv" ≠ "" ∧
  _register_assets Sample.OtherCsvDatasource
    (asset_handle Sample.OtherCsvDatasource Sample.csv_registered) Sample.csv_registered
  = (inr (asset_handle Sample.OtherCsvDatasource Sample.csv_registered),
     Sample.csv_registered) ∧
  dict_get (source_factories Sample.csv_registered) ("add_" +:+ "csv")
    = Some Sample.csv_factory ∧
  register_types_and_ds_factory Sample.OtherCsvDatasource Sample.other_factory
    Sample.csv_registered
  = (inl (TypeRegistrationError
            ("'" +:+ "csv" +:+ "' - `sources.add_" +:+ "csv" +:+ "()` factory already exists")
            None),
     rolled_back_state Sample.OtherCsvDatasource Sample.csv_registered Sample.csv_registered) ∧
  fn_name (rolled_back_state Sample.OtherCsvDatasource Sample.csv_registered
             Sample.csv_registered) = fn_name Sample.csv_registered ∧
  type_lookup (rolled_back_state Sample.OtherCsvDatasource Sample.csv_registered
                 Sample.csv_registered) = type_lookup Sample.csv_registered.
Proof.
  split; [reflexivity|]. split; [discriminate|]. split; [reflexivity|].
  split; [reflexivity|].
  apply (collision_error Sample.OtherCsvDatasource Sample.other_factory Sample.csv_registered
           "csv" (asset_handle Sample.OtherCsvDatasource Sample.csv_registered)
           Sample.csv_registered Sample.csv_factory);
    [reflexivity | discriminate | reflexivity | reflexivity].
Defined.

(** The loop binds nothing when every public asset type that has a tag
    already has its [add_<tag>_asset] on the class. *)
Lemma loop_binds_nothing (ds_type : DatasourceType) ts st :
  (∀ t n, t ∈ ts → is_public t = true → declared_type t = Py.PyStr n →
          is_Some (__dict__ st (cls_ref ds_type) !! ("add_" +:+ n +:+ "_asset"))) →
  ∀ h, (register_assets_loop ds_type ts h st).2 = st.
Proof.
  induction ts as [|t0 ts IH]; intros Hall h; [done|].
  cbn [register_assets_loop]. rewrite run_bind.
  assert (Hst : (register_asset ds_type t0 h st).2 = st).
  { destruct (is_public t0) eqn:Hp; [|by rewrite run_register_asset_private].
    destruct (register_asset ds_type t0 h st) as [[e|h0] st0] eqn:Hr.
    - destruct (run_register_asset ds_type t0 h st) as [[r Hr']|(n & h' & Hr')];
        rewrite Hr' in Hr; [by injection Hr as _ <- | done].
    - destruct (run_register_asset_public _ _ _ _ _ _ Hp Hr) as (n & Hd & ->). simpl.
      unfold bound.
      destruct (Hall t0 n (list_elem_of_here _ _) Hp Hd) as [u ->]. done. }
  destruct (register_asset ds_type t0 h st) as [[e|h0] st0]; simpl in Hst; subst st0; [done|].
  apply IH. intros t n Hin. apply Hall. by apply list_elem_of_further.
Qed.

(** X15. A class without public asset types gets no operation bound: after
    a registration call for it, whatever the outcome, the attributes of
    every class are exactly what they were. *)
Theorem no_public_asset_types_binds_nothing (ds_type : DatasourceType)
    (factory_fn : fn_ref) (st : State) :
  List.filter is_public (asset_types ds_type) = [] →
  class_dict (register_types_and_ds_factory ds_type factory_fn st).2 = class_dict st.
Proof.
  intros Hf.
  assert (Hloop : ∀ h, (_register_assets ds_type h st).2 = st).
  { intros h. unfold _register_assets. apply loop_binds_nothing.
    intros t n Hin Hp _. apply list_elem_of_In in Hin.
    assert (In t (List.filter is_public (asset_types ds_type))) as Hin'
      by (apply List.filter_In; by split).
    rewrite Hf in Hin'. destruct Hin'. }
  destruct (register_types_and_ds_factory ds_type factory_fn st) as [[e|u] st'] eqn:Hr; simpl.
  - apply register_failure in Hr as [-> | ->]; [done|]. by rewrite Hloop.
  - apply register_success in Hr as (_ & h1 & h2 & st1 & _ & _ & Ha & _ & _ & ->).
    specialize (Hloop (asset_handle ds_type st)). rewrite Ha in Hloop. simpl in Hloop.
    by subst st1.
Qed.

Lemma no_public_asset_types_binds_nothing_witness :
  List.filter is_public (asset_types MoreSamples.PrivateOnlyDatasource) = [] ∧
  class_dict (register_types_and_ds_factory MoreSamples.PrivateOnlyDatasource
                Sample.other_factory Sample.csv_registered).2
  = class_dict Sample.csv_registered.
Proof.
  split; [reflexivity|].
  apply (no_public_asset_types_binds_nothing MoreSamples.PrivateOnlyDatasource
           Sample.other_factory Sample.csv_registered).
  reflexivity.
Defined.

Lemma getTag_app_Some (m m' : TypeLookup.t) ty tag :
  TypeLookup.getTag m ty = Some tag → TypeLookup.getTag (m ++ m') ty = Some tag.
Proof.
  induction m as [|[tag0 ty0] m IH]; simpl; [done|].
  destruct (bool_decide (ty0 = ty)); auto.
Qed.

Lemma getTag_app_None (m m' : TypeLookup.t) ty :
  TypeLookup.getTag m ty = None → TypeLookup.getTag (m ++ m') ty = TypeLookup.getTag m' ty.
Proof.
  induction m as [|[tag0 ty0] m IH]; simpl; [done|].
  destruct (bool_decide (ty0 = ty)); [done | auto].
Qed.

Lemma paired_app (m m' : TypeLookup.t) tag ty : paired m tag ty → paired (m ++ m') tag ty.
Proof. intros [Hg Ht]. split; [by apply get_app_Some | by apply getTag_app_Some]. Qed.

(** After a [set] that went through the map has the pair. *)
Lemma check_paired (m : TypeLookup.t) ty tag new :
  TypeLookup.check m ty tag = inr new →
  (new = [] ∨ new = [(tag, ty)]) ∧ paired (m ++ new) tag ty.
Proof.
  unfold TypeLookup.check.
  destruct (TypeLookup.get m tag) as [ty'|] eqn:Hg.
  - case_bool_decide as Hty; [subst ty'|done].
    destruct (TypeLookup.getTag m ty) as [tag'|] eqn:Ht.
    + case_bool_decide as Htag; [subst tag'|done].
      intros [= <-]. split; [by left|]. rewrite app_nil_r. by split.
    + exfalso. clear -Hg Ht. induction m as [|[tag0 ty0] m IH]; simpl in *; [done|].
      destruct (bool_decide (ty0 = ty)) eqn:Hty; [done|].
      destruct (bool_decide (tag0 = tag)); [|auto].
      injection Hg as ->. by rewrite bool_decide_eq_true_2 in Hty.
  - destruct (TypeLookup.getTag m ty) eqn:Ht; [done|].
    intros [= <-]. split; [by right|]. split.
    + rewrite get_app_None by done. simpl. by rewrite bool_decide_eq_true_2.
    + rewrite getTag_app_None by done. simpl. by rewrite bool_decide_eq_true_2.
Qed.

(** Setting a pair that the view has stages nothing. *)
Lemma setitem_present h ty tag :
  paired (TypeLookup.view h) tag ty → TypeLookup.setitem h ty tag = inr h.
Proof.
  intros [Hg Ht]. unfold TypeLookup.setitem, TypeLookup.check. rewrite Hg, Ht.
  rewrite !bool_decide_eq_true_2 by done. destruct h as [c s]. simpl. by rewrite app_nil_r.
Qed.

Lemma setitem_paired h ty tag h' :
  TypeLookup.setitem h ty tag = inr h' →
  paired (TypeLookup.view h') tag ty ∧
  ∀ tag0 ty0, paired (TypeLookup.view h) tag0 ty0 → paired (TypeLookup.view h') tag0 ty0.
Proof.
  unfold TypeLookup.setitem.
  destruct (TypeLookup.check (TypeLookup.view h) ty tag) as [e|new] eqn:Hc; [done|].
  intros [= <-]. apply check_paired in Hc as [_ Hp].
  unfold TypeLookup.view in *. simpl. rewrite app_assoc. split; [done|].
  intros tag0 ty0. apply paired_app.
Qed.

(** After a loop that went through, the view has the pair of every public
    asset type. *)
Lemma loop_pairs ds_type ts :
  ∀ h st h' st1,
    register_assets_loop ds_type ts h st = (inr h', st1) →
    (∀ tag0 ty0, paired (TypeLookup.view h) tag0 ty0 → paired (TypeLookup.view h') tag0 ty0) ∧
    (∀ t, t ∈ ts → is_public t = true →
          ∃ n, declared_type t = Py.PyStr n ∧ paired (TypeLookup.view h') n (cls_ref t)).
Proof.
  induction ts as [|t0 ts IH]; intros h st h' st1 Hloop.
  { cbn in Hloop. injection Hloop as <- _. split; [done|]. by intros t ?%elem_of_nil. }
  cbn [register_assets_loop] in Hloop. rewrite run_bind in Hloop.
  destruct (register_asset ds_type t0 h st) as [[e|h0] st0] eqn:Hr; [done|].
  destruct (IH _ _ _ _ Hloop) as [Hgrow Hrec].
  assert (Hgrow0 : ∀ tag0 ty0, paired (TypeLookup.view h) tag0 ty0 →
                               paired (TypeLookup.view h0) tag0 ty0).
  { destruct (is_public t0) eqn:Hp.
    - destruct (run_register_asset_staged _ _ _ _ _ _ Hp Hr) as (n & _ & Hs).
      by apply setitem_paired in Hs as [_ ?].
    - rewrite run_register_asset_private in Hr by done. by injection Hr as <- _. }
  split; [by auto|].
  intros t [->|Hin]%elem_of_cons Hp; [|by apply Hrec].
  destruct (run_register_asset_staged _ _ _ _ _ _ Hp Hr) as (n & Hd & Hs).
  exists n. split; [done|]. apply Hgrow. by apply setitem_paired in Hs as [? _].
Qed.

(** When the view has the pair of every public asset type, the loop goes
    through and stages nothing. *)
Lemma loop_present ds_type ts h :
  (∀ t, t ∈ ts → is_public t = true →
        ∃ n, declared_type t = Py.PyStr n ∧ paired (TypeLookup.view h) n (cls_ref t)) →
  ∀ st, ∃ st', register_assets_loop ds_type ts h st = (inr h, st').
Proof.
  induction ts as [|t0 ts IH]; intros Hall st; [by eexists|].
  cbn [register_assets_loop]. rewrite run_bind.
  assert (Hr : ∃ st0, register_asset ds_type t0 h st = (inr h, st0)).
  { destruct (is_public t0) eqn:Hp; [|rewrite run_register_asset_private by done; by eexists].
    destruct (Hall t0 (list_elem_of_here _ _) Hp) as (n & Hd & Hpair).
    unfold is_public in Hp. apply negb_true_iff in Hp.
    unfold register_asset, register_asset_try. rewrite Hp.
    unfold declared_type in Hd.
    destruct (_get_field_details t0 "type") as [e|details]; [done|].
    simpl in Hd. rewrite Hd. rewrite (setitem_present _ _ _ Hpair).
    run. rewrite run_bind_asset_factory. by eexists. }
  destruct Hr as [st0 ->].
  apply IH. intros t Hin. apply Hall. by apply list_elem_of_further.
Qed.

(** When a registration went through, a second pass over the asset types of
    the class on the store it left goes through as well. *)
Lemma register_assets_again (ds_type : DatasourceType) factory_fn st st1 :
  register_types_and_ds_factory ds_type factory_fn st = (inr tt, st1) →
  ∃ st2, _register_assets ds_type (asset_handle ds_type st1) st1
         = (inr (asset_handle ds_type st1), st2).
Proof.
  intros (tag & h1 & h2 & st0 & _ & _ & Ha & _ & _ & ->)%register_success.
  unfold _register_assets in *. apply loop_present.
  intros t Hin Hp.
  destruct (loop_pairs _ _ _ _ _ _ Ha) as [_ Hrec].
  destruct (Hrec t Hin Hp) as (n & Hd & Hpair). exists n. split; [done|].
  unfold asset_handle, committed_state, TypeLookup.transaction, TypeLookup.view. simpl.
  change (_type_lookup (set_type_lookup ?m ?s) ?c) with (_type_lookup s c).
  rewrite type_lookup_set__type_lookup, bool_decide_eq_true_2 by done.
  by rewrite app_nil_r.
Qed.

(** X16. Registering a class a second time, right after a registration of
    it that went through, is rejected with [TypeRegistrationError] and
    changes nothing: the maps, the factory table and the function names are
    as the first registration left them, and so are the attributes of every
    class. *)
Theorem repeated_registration_rejected (ds_type : DatasourceType) (f1 f2 : fn_ref)
    (st st1 : State) :
  register_types_and_ds_factory ds_type f1 st = (inr tt, st1) →
  ∃ msg cause st2,
    register_types_and_ds_factory ds_type f2 st1
      = (inl (TypeRegistrationError msg cause), st2) ∧
    same_tables st1 st2 ∧
    class_dict st2 = class_dict st1.
Proof.
  intros Hr1.
  pose proof (register_success _ _ _ _ _ Hr1) as (tag & h1 & h2 & st0 & Hd & _ & Ha & _ & _ & Hst1).
  pose proof (register_success_tables _ _ _ _ _ Hr1) as (Hnone & Hsf & _).
  destruct (register_assets_again _ _ _ _ Hr1) as [st3 Hagain].
  assert (Hg : dict_get (source_factories st1) ("add_" +:+ tag) = Some f1).
  { rewrite Hsf. unfold method_name_of in *. rewrite Hd in *. simpl in *.
    rewrite dict_get_app_None by done. simpl. by rewrite bool_decide_eq_true_2. }
  destruct (register_taken ds_type f2 tag f1 st1 Hd Hg) as (e & st2 & Hr2 & Hsame & He).
  assert (Htre : is_TypeRegistrationError e = true).
  { destruct He as [He | (_ & st4 & Hfail)]; [done|]. rewrite Hagain in Hfail. done. }
  destruct e as [| | | |msg cause| | |]; try done.
  exists msg, cause, st2. split; [done|]. split; [done|].
  assert (Hloop : ∀ h, (_register_assets ds_type h st1).2 = st1).
  { intros h. unfold _register_assets. apply loop_binds_nothing.
    intros t n Hin Hp Hn. unfold _register_assets in Ha.
    destruct (loop_asset_operations ds_type _ _ _ _ _ Ha t Hin Hp) as (n' & Hn' & Hsome & _).
    assert (n' = n) as -> by congruence.
    subst st1. by rewrite dict_committed_state. }
  apply register_failure in Hr2 as [-> | ->]; [done|]. by rewrite Hloop.
Qed.

Lemma repeated_registration_rejected_witness :
  register_types_and_ds_factory MoreSamples.PandasDatasource MoreSamples.pandas_factory
    initial_state = (inr tt, MoreSamples.pandas_registered) ∧
  ∃ msg cause st2,
    register_types_and_ds_factory MoreSamples.PandasDatasource Sample.other_factory
      MoreSamples.pandas_registered = (inl (TypeRegistrationError msg cause), st2) ∧
    same_tables MoreSamples.pandas_registered st2 ∧
    class_dict st2 = class_dict MoreSamples.pandas_registered.
Proof.
  split; [reflexivity|].
  apply (repeated_registration_rejected MoreSamples.PandasDatasource
           MoreSamples.pandas_factory Sample.other_factory initial_state
           MoreSamples.pandas_registered).
  reflexivity.
Defined.

(** ** The two generated operations together *)

Section GeneratedOperationsTogether.

Context {W obj Kwargs : Type}.
Context (construct : type_ref → string → Kwargs → SE W obj).
Context (add_asset : obj → obj → SE W obj).
Context (build_batch_request : obj → SE W obj).
Context (data_context_of : obj → SE W obj).
Context (get_validator : obj → obj → SE W obj).

(** X17. [read_<tag>] begins as [add_<tag>_asset] does: called with a
    non-empty name, it raises whatever exception [add_<tag>_asset] raises
    for that name and those keyword arguments, in the same world, be it
    from the construction of the asset or from [add_asset]. *)
Theorem read_fails_as_add_fails (asset_type : type_ref) (self : obj) (name : string)
    (kwargs : Kwargs) (w : W) (e : exn) (w' : W) :
  name ≠ "" →
  _add_asset_factory construct add_asset asset_type self name kwargs w = (inl e, w') →
  _read_asset_factory construct add_asset build_batch_request data_context_of get_validator
    asset_type self (Py.PyStr name) kwargs w = (inl e, w').
Proof.
  intros Hne. unfold _add_asset_factory, _read_asset_factory, asset_name_or_default,
    read_constructed_asset. simpl. rewrite bool_decide_eq_false_2 by done. simpl. run.
  destruct (construct asset_type name kwargs w) as [[e0|asset] w0]; [done|].
  run. destruct (add_asset self asset w0) as [[e1|r] w1]; [done | discriminate].
Qed.

End GeneratedOperationsTogether.

Lemma read_fails_as_add_fails_witness :
  "my_asset" ≠ "" ∧
  _add_asset_factory MoreSamples.failing_construct Sample.add_asset
    (cls_ref Sample.FileAsset) 1 "my_asset" tt Sample.empty_world
  = (inl (ValueError "cannot build"), Sample.empty_world) ∧
  _read_asset_factory MoreSamples.failing_construct Sample.add_asset
    Sample.build_batch_request Sample.data_context_of Sample.get_validator
    (cls_ref Sample.FileAsset) 1 (Py.PyStr "my_asset") tt Sample.empty_world
  = (inl (ValueError "cannot build"), Sample.empty_world).
Proof.
  split; [discriminate|]. split; [reflexivity|].
  apply (read_fails_as_add_fails MoreSamples.failing_construct Sample.add_asset
           Sample.build_batch_request Sample.data_context_of Sample.get_validator
           (cls_ref Sample.FileAsset) 1 "my_asset" tt Sample.empty_world
           (ValueError "cannot build") Sample.empty_world);
    [discriminate | reflexivity].
Defined.
